(** * certstream-server-go: the certificate parser and the CT watcher

    A shallow embedding of [internal/certificatetransparency/ct-parser.go]
    and [internal/certificatetransparency/ct-watcher.go], and the properties
    of the enriched event record, of the CA-owner catalog refresh and of the
    worker start index that the specification states about them.

    Go values are modelled as follows.
    - [string] is a Go string, one [ascii] per byte.
    - [list byte] is a [[]byte].
    - [slice A] is a Go slice that may be nil.
    - [int], [int64] are [Z]; conversions write their wrap-around out.
    - a pointer that may be nil is an [option].
    - a [map[string]string] that may be nil is an [option (gmap string string)].
    - a panic is the [Panic] result of the [Go] monad. *)

From Stdlib Require Import ZArith NArith Ascii String List Bool Lia.
From Stdlib.Strings Require Import Byte.
From Stdlib Require Import DecimalString HexadecimalString.
From stdpp Require Import base option list strings gmap.

Local Open Scope string_scope.
Local Open Scope list_scope.

(** ** Go slices and panics *)

(** A slice is nil or holds its elements. *)
Definition slice (A : Type) : Type := option (list A).

Definition elems {A} (s : slice A) : list A := default [] s.

(** [append(s, x)]: the result is never nil. *)
Definition append {A} (s : slice A) (x : A) : slice A := Some (elems s ++ [x]).

Definition len {A} (s : slice A) : Z := Z.of_nat (length (elems s)).

(** A computation that returns or panics. *)
Inductive Go (A : Type) : Type :=
| Ret (a : A)
| Panic (why : string).
Arguments Ret {A} a.
Arguments Panic {A} why.

#[global] Instance Go_ret : MRet Go := fun A a => Ret a.

#[global] Instance Go_bind : MBind Go := fun A B k m =>
  match m with
  | Ret a => k a
  | Panic w => Panic w
  end.

(** [*p]: a nil pointer dereference panics. *)
Definition deref {A} (p : option A) : Go A :=
  match p with
  | Some a => Ret a
  | None => Panic "invalid memory address or nil pointer dereference"
  end.

(** [l[i]]: an index out of range panics. *)
Definition index {A} (l : list A) (i : nat) : Go A :=
  match nth_error l i with
  | Some a => Ret a
  | None => Panic "index out of range"
  end.

(** ** Package [strings] *)

Module Strings.

Definition HasPrefix (s p : string) : bool := String.prefix p s.

(** [len(s) >= len(suffix) && s[len(s)-len(suffix):] == suffix] *)
Definition HasSuffix (s suf : string) : bool :=
  let n := String.length s in
  let m := String.length suf in
  (m <=? n)%nat && String.eqb (substring (n - m) m s) suf.

Definition TrimPrefix (s p : string) : string :=
  if HasPrefix s p
  then substring (String.length p) (String.length s - String.length p) s
  else s.

Definition TrimSuffix (s suf : string) : string :=
  if HasSuffix s suf
  then substring 0 (String.length s - String.length suf) s
  else s.

Fixpoint Contains (s sub : string) : bool :=
  HasPrefix s sub ||
  match s with
  | EmptyString => false
  | String _ s' => Contains s' sub
  end.

Fixpoint mem_ascii (c : ascii) (cutset : string) : bool :=
  match cutset with
  | EmptyString => false
  | String d r => Ascii.eqb c d || mem_ascii c r
  end.

Fixpoint TrimLeft (s cutset : string) : string :=
  match s with
  | EmptyString => EmptyString
  | String c r => if mem_ascii c cutset then TrimLeft r cutset else s
  end.

(** Drops the trailing bytes that are in [cutset]. *)
Fixpoint TrimRight (s cutset : string) : string :=
  match s with
  | EmptyString => EmptyString
  | String c r =>
      match TrimRight r cutset with
      | EmptyString => if mem_ascii c cutset then EmptyString else String c EmptyString
      | r' => String c r'
      end
  end.

Fixpoint Join (l : list string) (sep : string) : string :=
  match l with
  | [] => EmptyString
  | [x] => x
  | x :: r => x +:+ sep +:+ Join r sep
  end.

(** [Split(s, sep)] for a separator that is not empty: [skip] counts the
    bytes of a separator still to pass over, [cur] is the field read so
    far. *)
Fixpoint split_go (s sep : string) (skip : nat) (cur : string) : list string :=
  match s with
  | EmptyString => [cur]
  | String c r =>
      match skip with
      | S k => split_go r sep k cur
      | O =>
          if HasPrefix s sep
          then cur :: split_go r sep (String.length sep - 1) EmptyString
          else split_go r sep O (cur +:+ String c EmptyString)
      end
  end.

Fixpoint explode (s : string) : list string :=
  match s with
  | EmptyString => []
  | String c r => String c EmptyString :: explode r
  end.

Definition Split (s sep : string) : list string :=
  match sep with
  | EmptyString => explode s
  | _ => split_go s sep O EmptyString
  end.

Definition upper_ascii (c : ascii) : ascii :=
  let n := nat_of_ascii c in
  if ((97 <=? n) && (n <=? 122))%nat then ascii_of_nat (n - 32) else c.

Definition lower_ascii (c : ascii) : ascii :=
  let n := nat_of_ascii c in
  if ((65 <=? n) && (n <=? 90))%nat then ascii_of_nat (n + 32) else c.

Fixpoint map_ascii (f : ascii -> ascii) (s : string) : string :=
  match s with
  | EmptyString => EmptyString
  | String c r => String (f c) (map_ascii f r)
  end.

(** The program upper-cases and lower-cases ASCII text only (hex digits,
    [CA:true]); bytes outside [a-z] and [A-Z] are kept. *)
Definition ToUpper (s : string) : string := map_ascii upper_ascii s.
Definition ToLower (s : string) : string := map_ascii lower_ascii s.

End Strings.

Local Open Scope Z_scope.

(** ** Package [strconv] *)

Module Strconv.

Definition Itoa (n : Z) : string :=
  DecimalString.NilZero.string_of_int (Z.to_int n).

Definition digit_of (c : ascii) : option Z :=
  let n := Z.of_nat (nat_of_ascii c) in
  if (48 <=? n) && (n <=? 57) then Some (n - 48) else None.

Inductive parsed : Type :=
| SyntaxError
| RangeError
| Parsed (n : Z).

(** The digit loop of [ParseUint(s, 10, 64)]: a byte that is no digit is a
    syntax error, a value beyond 64 bits a range error, whichever comes
    first. *)
Fixpoint parse_digits (s : string) (n : Z) : parsed :=
  match s with
  | EmptyString => Parsed n
  | String c r =>
      match digit_of c with
      | None => SyntaxError
      | Some d =>
          if 1844674407370955162 <=? n then RangeError
          else if 18446744073709551615 <? n * 10 + d then RangeError
          else parse_digits r (n * 10 + d)
      end
  end.

Definition ParseUint (s : string) : parsed :=
  match s with
  | EmptyString => SyntaxError
  | _ => parse_digits s 0
  end.

(** [ParseInt(s, 10, 0)] with a 64-bit [int]: the value and whether an
    error came with it. A range error comes with the nearest bound. *)
Definition ParseInt (s : string) : Z * bool :=
  match s with
  | EmptyString => (0, true)
  | String c r =>
      let neg := Ascii.eqb c "-" in
      let body := if Ascii.eqb c "+" || neg then r else s in
      match ParseUint body with
      | SyntaxError => (0, true)
      | RangeError => (if neg then - 9223372036854775808 else 9223372036854775807, true)
      | Parsed un =>
          if negb neg && (9223372036854775808 <=? un) then (9223372036854775807, true)
          else if neg && (9223372036854775808 <? un) then (- 9223372036854775808, true)
          else (if neg then - un else un, false)
      end
  end.

(** [Atoi]: its fast path for short inputs returns what [ParseInt]
    returns on them. *)
Definition Atoi (s : string) : Z * bool := ParseInt s.

End Strconv.

(** ** Package [encoding/hex] and the verbs of [fmt] the program uses *)

Module Hex.

Definition digit (n : N) : ascii :=
  match String.get (N.to_nat n) "0123456789abcdef" with
  | Some c => c
  | None => "0"%char
  end.

Definition of_byte (b : byte) : string :=
  let n := Byte.to_N b in
  String (digit (n / 16)%N) (String (digit (n mod 16)%N) EmptyString).

Fixpoint EncodeToString (src : list byte) : string :=
  match src with
  | [] => EmptyString
  | b :: r => of_byte b +:+ EncodeToString r
  end.

End Hex.

Module Fmt.

(** [Sprintf("%d", v)] for [v] of type [[]int]. With the verb [%d] the
    [String] method of an [asn1.ObjectIdentifier] is not called (only
    [%v], [%s], [%x], [%X] and [%q] call it): the value prints as the
    slice of integers it is. *)
Definition d_ints (v : list Z) : string :=
  "[" +:+ Strings.Join (map Strconv.Itoa v) " " +:+ "]".

(** [Sprintf("%d", v)] for [v] of type [[]asn1.ObjectIdentifier]. *)
Definition d_oids (v : list (list Z)) : string :=
  "[" +:+ Strings.Join (map d_ints v) " " +:+ "]".

(** [Sprintf("%X", n)] for [n] of type [*big.Int]. *)
Definition X_bigint (n : option Z) : string :=
  match n with
  | None => "<nil>"
  | Some z => Strings.ToUpper (HexadecimalString.NilZero.string_of_int (Z.to_hex_int z))
  end.

(** [Sprintf("%02x", b)] for a [b] of type [[]byte] that is not empty:
    the width 2 is never larger than the text. *)
Definition x02_bytes (b : list byte) : string := Hex.EncodeToString b.

(** [Sprintf("CA:%t", b)] *)
Definition CA_t (b : bool) : string := if b then "CA:true" else "CA:false".

End Fmt.

(** ** Package [encoding/json], for the one struct the program marshals *)

Module Json.

(** The escape of one byte inside a JSON string, as [Marshal] writes it
    with its default HTML escaping. Bytes from 0x80 on are kept: the text
    is taken to be valid UTF-8 without U+2028 and U+2029. *)
Definition escape_ascii (c : ascii) : string :=
  let n := nat_of_ascii c in
  if (n =? 34)%nat then String "\"%char (String c EmptyString)
  else if Ascii.eqb c "\"%char then String "\"%char (String c EmptyString)
  else if (n =? 8)%nat then "\b"
  else if (n =? 12)%nat then "\f"
  else if (n =? 10)%nat then "\n"
  else if (n =? 13)%nat then "\r"
  else if (n =? 9)%nat then "\t"
  else if (n <? 32)%nat || Ascii.eqb c "<"%char || Ascii.eqb c ">"%char
          || Ascii.eqb c "&"%char
  then "\u00" +:+ String (Hex.digit (N.of_nat n / 16)%N)
                    (String (Hex.digit (N.of_nat n mod 16)%N) EmptyString)
  else String c EmptyString.

Fixpoint escape (s : string) : string :=
  match s with
  | EmptyString => EmptyString
  | String c r => escape_ascii c +:+ escape r
  end.

Definition quote : string := String (ascii_of_nat 34) EmptyString.

Definition str (s : string) : string := quote +:+ escape s +:+ quote.

(** A struct field tagged [omitempty] whose value is a string. *)
Definition field (key value : string) : list string :=
  match value with
  | EmptyString => []
  | _ => [str key +:+ ":" +:+ str value]
  end.

(** A struct field tagged [omitempty] whose value is a slice of strings. *)
Definition field_list (key : string) (values : list string) : list string :=
  match values with
  | [] => []
  | _ => [str key +:+ ":[" +:+ Strings.Join (map str values) "," +:+ "]"]
  end.

Definition object (fields : list string) : string :=
  "{" +:+ Strings.Join fields "," +:+ "}".

End Json.

(** ** ct-watcher.go: [normalizeCtlogURL] *)

Definition normalizeCtlogURL (input : string) : string :=
  let input := Strings.TrimPrefix input "https://" in
  let input := Strings.TrimPrefix input "http://" in
  let input := Strings.TrimSuffix input "/" in
  input.

(** ** The types of the libraries the parser reads *)

Definition OID : Type := list Z.

Module pkix.

Record AttributeTypeAndValue : Type := {
  Type_ : OID;
  (** the decoded directory string *)
  Value : string
}.

Record Name : Type := {
  Country : slice string;
  Organization : slice string;
  OrganizationalUnit : slice string;
  Locality : slice string;
  Province : slice string;
  StreetAddress : slice string;
  PostalCode : slice string;
  SerialNumber : string;
  CommonName : string;
  Names : list AttributeTypeAndValue
}.

End pkix.

Module x509.

Inductive SignatureAlgorithm : Type :=
| UnknownSignatureAlgorithm
| MD2WithRSA | MD5WithRSA | SHA1WithRSA | SHA256WithRSA | SHA384WithRSA
| SHA512WithRSA | DSAWithSHA1 | DSAWithSHA256 | ECDSAWithSHA1
| ECDSAWithSHA256 | ECDSAWithSHA384 | ECDSAWithSHA512 | SHA256WithRSAPSS
| SHA384WithRSAPSS | SHA512WithRSAPSS | PureEd25519.

(** What [ParsePKIXPublicKey] returns behind its [interface{}]. *)
Inductive PublicKey : Type :=
| rsa_PublicKey (N : Z)
| dsa_PublicKey (Y : Z)
| ecdsa_PublicKey (X : Z)
| other_PublicKey.

Record Extension : Type := { Id : OID }.

Definition OIDExtensionSubjectKeyId : OID := [2; 5; 29; 14].
Definition OIDExtensionKeyUsage : OID := [2; 5; 29; 15].
Definition OIDExtensionAuthorityKeyId : OID := [2; 5; 29; 35].
Definition OIDExtensionBasicConstraints : OID := [2; 5; 29; 19].
Definition OIDExtensionSubjectAltName : OID := [2; 5; 29; 17].
Definition OIDExtensionAuthorityInfoAccess : OID := [1; 3; 6; 1; 5; 5; 7; 1; 1].
Definition OIDExtensionCTPoison : OID := [1; 3; 6; 1; 4; 1; 11129; 2; 4; 3].

Definition KeyUsageDigitalSignature : Z := 1.
Definition KeyUsageContentCommitment : Z := 2.
Definition KeyUsageKeyEncipherment : Z := 4.
Definition KeyUsageDataEncipherment : Z := 8.
Definition KeyUsageKeyAgreement : Z := 16.
Definition KeyUsageCertSign : Z := 32.
Definition KeyUsageCRLSign : Z := 64.
Definition KeyUsageEncipherOnly : Z := 128.
Definition KeyUsageDecipherOnly : Z := 256.

Record Certificate : Type := {
  Raw : list byte;
  RawSubjectPublicKeyInfo : list byte;
  SignatureAlgorithm_ : SignatureAlgorithm;
  PublicKeyAlgorithm : Z;
  SerialNumber : option Z;
  Issuer : pkix.Name;
  Subject : pkix.Name;
  (** [NotBefore.Unix()] and [NotAfter.Unix()] *)
  NotBefore : Z;
  NotAfter : Z;
  KeyUsage : Z;
  Extensions : list Extension;
  IsCA : bool;
  SubjectKeyId : list byte;
  AuthorityKeyId : list byte;
  OCSPServer : list string;
  IssuingCertificateURL : list string;
  DNSNames : slice string;
  EmailAddresses : list string;
  (** each address as [ip.String()] prints it *)
  IPAddresses : list string;
  PolicyIdentifiers : list OID
}.

End x509.

Module ct.

(** [TBSCertificate] is a pointer that [ToLogEntry] never leaves nil in an
    entry it returns without an error. *)
Record Precertificate : Type := {
  Submitted : list byte;
  TBSCertificate : x509.Certificate
}.

Record LogEntry : Type := {
  X509Cert : option x509.Certificate;
  Precert : option Precertificate;
  Chain : list (list byte)
}.

(** [Cert] is [entry.Cert.Data]; the rest of a raw entry is read by
    [ToLogEntry] only. *)
Record RawLogEntry : Type := {
  Index : Z;
  Cert : list byte;
  Leaf : list byte;
  RawChain : list (list byte)
}.

End ct.

(** [hash.Hash], for a hash of a fixed size that is not zero. *)
Record Hash : Type := {
  Sum : list byte -> list byte;
  Size : nat;
  Size_pos : (0 < Size)%nat;
  Sum_length : forall data, length (Sum data) = Size
}.

(** The functions of other packages that the program calls and that are
    kept abstract here. An [option] result is [None] when the call returns
    an error. *)
Class Library : Type := {
  (** [psl.EffectiveTLDPlusOne] *)
  EffectiveTLDPlusOne : string -> option string;
  (** [net.ParseIP(s) != nil] *)
  ParseIP : string -> bool;
  ParsePKIXPublicKey : list byte -> option x509.PublicKey;
  ParseCertificate : list byte -> option x509.Certificate;
  (** [entry.ToLogEntry()], [None] when it returns an error, fatal or not *)
  ToLogEntry : ct.RawLogEntry -> option ct.LogEntry;
  (** [base64.StdEncoding] *)
  EncodeToString : list byte -> string;
  (** the bytes [DecodeString] returns, whatever its error *)
  DecodeString : string -> list byte;
  sha1_New : Hash;
  sha256_New : Hash
}.

(** ** The types of package [certstream] *)

Module certstream.

Record SubjectT : Type := {
  C : option string;
  CN : option string;
  L : option string;
  O : option string;
  OU : option string;
  ST : option string;
  Aggregated : option string
}.

Record ExtensionsT : Type := {
  AuthorityKeyIdentifier : option string;
  SubjectKeyIdentifier : option string;
  KeyUsage : option string;
  BasicConstraints : option string;
  SubjectAltName : option string;
  AuthorityInfoAccess : option string;
  CTLPoisonByte : bool
}.

Record CertTypeExtT : Type := {
  SANCount : Z;
  WildcardSANCount : Z;
  SingleSANCount : Z
}.

Record LeafCertT : Type := {
  AllDomains : slice string;
  AllRegDomains : slice string;
  AsDER : string;
  Extensions : ExtensionsT;
  Fingerprint : string;
  SHA1 : string;
  SHA256 : string;
  NotAfter : Z;
  NotBefore : Z;
  SerialNumber : string;
  SignatureAlgorithm : string;
  KeyType : string;
  IsCA : bool;
  Subject : SubjectT;
  Issuer : SubjectT;
  ValidationType : string;
  CertType : string;
  CertTypeExt : CertTypeExtT;
  CAOwner : string
}.

Record SourceT : Type := {
  Name : string;
  URL : string;
  Operator : string;
  NormalizedURL : string
}.

(** [Seen] is [float64(ms) / 1000] for the clock reading [ms] in
    milliseconds; the field holds [ms]. *)
Record DataT : Type := {
  CertIndex : Z;
  CertLink : string;
  Seen : Z;
  Source : SourceT;
  UpdateType : string;
  LeafCert : LeafCertT;
  Chain : list LeafCertT
}.

Record Entry : Type := {
  Data : DataT;
  MessageType : string
}.

End certstream.

(** ** ct-parser.go *)

Record JSONName : Type := {
  CommonName : string;
  SerialNumber : string;
  Country : string;
  Organization : string;
  OrganizationalUnit : string;
  Locality : string;
  Province : string;
  StreetAddress : string;
  PostalCode : string;
  Names : list string
}.

(** [json.Marshal] of a [JSONName]: the fields in the order of the struct,
    each left out when empty. *)
Definition Marshal (n : JSONName) : string :=
  Json.object
    (Json.field "common_name" (CommonName n)
     ++ Json.field "serial_number" (SerialNumber n)
     ++ Json.field "country" (Country n)
     ++ Json.field "organization" (Organization n)
     ++ Json.field "organizational_unit" (OrganizationalUnit n)
     ++ Json.field "locality" (Locality n)
     ++ Json.field "province" (Province n)
     ++ Json.field "street_address" (StreetAddress n)
     ++ Json.field "postal_code" (PostalCode n)
     ++ Json.field_list "names" (Names n)).

Definition ParseNameJSON (name : pkix.Name) : JSONName :=
  let n := {|
    CommonName := pkix.CommonName name;
    SerialNumber := pkix.SerialNumber name;
    Country := Strings.Join (elems (pkix.Country name)) ",";
    Organization := Strings.Join (elems (pkix.Organization name)) ",";
    OrganizationalUnit := Strings.Join (elems (pkix.OrganizationalUnit name)) ",";
    Locality := Strings.Join (elems (pkix.Locality name)) ",";
    Province := Strings.Join (elems (pkix.Province name)) ",";
    StreetAddress := Strings.Join (elems (pkix.StreetAddress name)) ",";
    PostalCode := Strings.Join (elems (pkix.PostalCode name)) ",";
    Names := []
  |} in
  fold_left
    (fun n atv =>
       {| CommonName := CommonName n; SerialNumber := SerialNumber n;
          Country := Country n; Organization := Organization n;
          OrganizationalUnit := OrganizationalUnit n; Locality := Locality n;
          Province := Province n; StreetAddress := StreetAddress n;
          PostalCode := PostalCode n;
          Names := Names n ++ [pkix.Value atv] |})
    (pkix.Names name) n.

Definition parseName (input : slice string) : option string :=
  match input with
  | None => None
  | Some l =>
      Some (fold_left
              (fun result s =>
                 let result :=
                   if (0 <? String.length result)%nat then result +:+ "," else result in
                 result +:+ s)
              l EmptyString)
  end.

Definition buildSubject (certSubject : pkix.Name) : certstream.SubjectT :=
  let aggregatedJSON := Marshal (ParseNameJSON certSubject) in
  {| certstream.C := parseName (pkix.Country certSubject);
     certstream.CN := Some (pkix.CommonName certSubject);
     certstream.L := parseName (pkix.Locality certSubject);
     certstream.O := parseName (pkix.Organization certSubject);
     certstream.OU := parseName (pkix.OrganizationalUnit certSubject);
     certstream.ST := parseName (pkix.StreetAddress certSubject);
     certstream.Aggregated := Some aggregatedJSON |}.

(** The loop of [formatKeyID] over [tmp[i:i+2]]; [tmp] is the output of
    [hex.EncodeToString] and has an even length. *)
Fixpoint formatKeyID_loop (tmp digest : string) : string :=
  match tmp with
  | String a (String b r) =>
      formatKeyID_loop r (digest +:+ ":" +:+ String a (String b EmptyString))
  | _ => digest
  end.

Definition formatKeyID (keyID : list byte) : option string :=
  let tmp := Hex.EncodeToString keyID in
  let digest := formatKeyID_loop tmp EmptyString in
  let digest := Strings.TrimLeft digest ":" in
  let digest := "keyid:" +:+ digest in
  Some digest.

Definition formatKeyIDShort (keyID : list byte) : option string :=
  let tmp := Hex.EncodeToString keyID in
  let digest := Strings.ToLower tmp in
  Some digest.

Definition formatSerialNumber (serialNumber : option Z) : string :=
  let sn := Fmt.X_bigint serialNumber in
  if (String.length sn mod 2 =? 1)%nat then "0" +:+ sn else sn.

(** The loop of [calculateHash]: [i] is the index of the first byte of
    [certHash] still to write. *)
Fixpoint calculateHash_loop (certHash : string) (i : nat) (result : string) : string :=
  match certHash with
  | EmptyString => result
  | String c r =>
      let result :=
        if (i mod 2 =? 0)%nat && (0 <? i)%nat then result +:+ ":" else result in
      calculateHash_loop r (S i) (result +:+ String c EmptyString)
  end.

(** [certHasher.Write] never returns an error. *)
Definition calculateHash (data : list byte) (certHasher : Hash) : string :=
  let certHash := Fmt.x02_bytes (Sum certHasher data) in
  let certHash := Strings.ToUpper certHash in
  calculateHash_loop certHash 0 EmptyString.

(** [big.Int.BitLen] *)
Definition BitLen (n : Z) : Z :=
  if n =? 0 then 0 else Z.log2 (Z.abs n) + 1.

Definition commaAppend (buf s : string) : string :=
  let buf := if (0 <? String.length buf)%nat then buf +:+ ", " else buf in
  buf +:+ s.

Definition keyUsageToString (k : Z) : string :=
  let step (flag : Z) (name : string) (buf : string) : string :=
    if negb (Z.land k flag =? 0) then commaAppend buf name else buf in
  let buf := EmptyString in
  let buf := step x509.KeyUsageDigitalSignature "Digital Signature" buf in
  let buf := step x509.KeyUsageContentCommitment "Content Commitment" buf in
  let buf := step x509.KeyUsageKeyEncipherment "Key Encipherment" buf in
  let buf := step x509.KeyUsageDataEncipherment "Data Encipherment" buf in
  let buf := step x509.KeyUsageKeyAgreement "Key Agreement" buf in
  let buf := step x509.KeyUsageCertSign "Certificate Signing" buf in
  let buf := step x509.KeyUsageCRLSign "CRL Signing" buf in
  let buf := step x509.KeyUsageEncipherOnly "Encipher Only" buf in
  let buf := step x509.KeyUsageDecipherOnly "Decipher Only" buf in
  buf.

Definition parseSignatureAlgorithm (signatureAlgoritm : x509.SignatureAlgorithm) : string :=
  match signatureAlgoritm with
  | x509.MD2WithRSA => "MD2WithRSA"
  | x509.MD5WithRSA => "MD5WithRSA"
  | x509.SHA1WithRSA => "SHA1WithRSA"
  | x509.SHA256WithRSA => "SHA256WithRSA"
  | x509.SHA384WithRSA => "SHA384WithRSA"
  | x509.SHA512WithRSA => "SHA512WithRSA"
  | x509.SHA256WithRSAPSS => "SHA256WithRSAPSS"
  | x509.SHA384WithRSAPSS => "SHA384WithRSAPSS"
  | x509.SHA512WithRSAPSS => "SHA512WithRSAPSS"
  | x509.DSAWithSHA1 => "DSAWithSHA1"
  | x509.DSAWithSHA256 => "DSAWithSHA256"
  | x509.ECDSAWithSHA1 => "ECDSAWithSHA1"
  | x509.ECDSAWithSHA256 => "ECDSAWithSHA256"
  | x509.ECDSAWithSHA384 => "ECDSAWithSHA384"
  | x509.ECDSAWithSHA512 => "ECDSAWithSHA512"
  | x509.PureEd25519 => "PureEd25519"
  | x509.UnknownSignatureAlgorithm => "unknown"
  end.

Definition OID_Equal (a b : OID) : bool := bool_decide (a = b).

Definition set_AuthorityKeyIdentifier (e : certstream.ExtensionsT) (v : option string) :=
  {| certstream.AuthorityKeyIdentifier := v;
     certstream.SubjectKeyIdentifier := certstream.SubjectKeyIdentifier e;
     certstream.KeyUsage := certstream.KeyUsage e;
     certstream.BasicConstraints := certstream.BasicConstraints e;
     certstream.SubjectAltName := certstream.SubjectAltName e;
     certstream.AuthorityInfoAccess := certstream.AuthorityInfoAccess e;
     certstream.CTLPoisonByte := certstream.CTLPoisonByte e |}.

Definition set_SubjectKeyIdentifier (e : certstream.ExtensionsT) (v : option string) :=
  {| certstream.AuthorityKeyIdentifier := certstream.AuthorityKeyIdentifier e;
     certstream.SubjectKeyIdentifier := v;
     certstream.KeyUsage := certstream.KeyUsage e;
     certstream.BasicConstraints := certstream.BasicConstraints e;
     certstream.SubjectAltName := certstream.SubjectAltName e;
     certstream.AuthorityInfoAccess := certstream.AuthorityInfoAccess e;
     certstream.CTLPoisonByte := certstream.CTLPoisonByte e |}.

Definition set_KeyUsage (e : certstream.ExtensionsT) (v : option string) :=
  {| certstream.AuthorityKeyIdentifier := certstream.AuthorityKeyIdentifier e;
     certstream.SubjectKeyIdentifier := certstream.SubjectKeyIdentifier e;
     certstream.KeyUsage := v;
     certstream.BasicConstraints := certstream.BasicConstraints e;
     certstream.SubjectAltName := certstream.SubjectAltName e;
     certstream.AuthorityInfoAccess := certstream.AuthorityInfoAccess e;
     certstream.CTLPoisonByte := certstream.CTLPoisonByte e |}.

Definition set_BasicConstraints (e : certstream.ExtensionsT) (v : option string) :=
  {| certstream.AuthorityKeyIdentifier := certstream.AuthorityKeyIdentifier e;
     certstream.SubjectKeyIdentifier := certstream.SubjectKeyIdentifier e;
     certstream.KeyUsage := certstream.KeyUsage e;
     certstream.BasicConstraints := v;
     certstream.SubjectAltName := certstream.SubjectAltName e;
     certstream.AuthorityInfoAccess := certstream.AuthorityInfoAccess e;
     certstream.CTLPoisonByte := certstream.CTLPoisonByte e |}.

Definition set_SubjectAltName (e : certstream.ExtensionsT) (v : option string) :=
  {| certstream.AuthorityKeyIdentifier := certstream.AuthorityKeyIdentifier e;
     certstream.SubjectKeyIdentifier := certstream.SubjectKeyIdentifier e;
     certstream.KeyUsage := certstream.KeyUsage e;
     certstream.BasicConstraints := certstream.BasicConstraints e;
     certstream.SubjectAltName := v;
     certstream.AuthorityInfoAccess := certstream.AuthorityInfoAccess e;
     certstream.CTLPoisonByte := certstream.CTLPoisonByte e |}.

Definition set_AuthorityInfoAccess (e : certstream.ExtensionsT) (v : option string) :=
  {| certstream.AuthorityKeyIdentifier := certstream.AuthorityKeyIdentifier e;
     certstream.SubjectKeyIdentifier := certstream.SubjectKeyIdentifier e;
     certstream.KeyUsage := certstream.KeyUsage e;
     certstream.BasicConstraints := certstream.BasicConstraints e;
     certstream.SubjectAltName := certstream.SubjectAltName e;
     certstream.AuthorityInfoAccess := v;
     certstream.CTLPoisonByte := certstream.CTLPoisonByte e |}.

Definition set_CTLPoisonByte (e : certstream.ExtensionsT) (v : bool) :=
  {| certstream.AuthorityKeyIdentifier := certstream.AuthorityKeyIdentifier e;
     certstream.SubjectKeyIdentifier := certstream.SubjectKeyIdentifier e;
     certstream.KeyUsage := certstream.KeyUsage e;
     certstream.BasicConstraints := certstream.BasicConstraints e;
     certstream.SubjectAltName := certstream.SubjectAltName e;
     certstream.AuthorityInfoAccess := certstream.AuthorityInfoAccess e;
     certstream.CTLPoisonByte := v |}.

(** [certstream.Extensions{}] *)
Definition Extensions_zero : certstream.ExtensionsT :=
  {| certstream.AuthorityKeyIdentifier := None;
     certstream.SubjectKeyIdentifier := None;
     certstream.KeyUsage := None;
     certstream.BasicConstraints := None;
     certstream.SubjectAltName := None;
     certstream.AuthorityInfoAccess := None;
     certstream.CTLPoisonByte := false |}.

(** The body of the loop over [cert.Extensions]. *)
Definition extension_step (cert : x509.Certificate)
    (ext : certstream.ExtensionsT) (extension : x509.Extension) : certstream.ExtensionsT :=
  let id := x509.Id extension in
  if OID_Equal id x509.OIDExtensionAuthorityKeyId then
    set_AuthorityKeyIdentifier ext (formatKeyIDShort (x509.AuthorityKeyId cert))
  else if OID_Equal id x509.OIDExtensionKeyUsage then
    let keyUsage := keyUsageToString (x509.KeyUsage cert) in
    set_KeyUsage ext (Some keyUsage)
  else if OID_Equal id x509.OIDExtensionSubjectKeyId then
    set_SubjectKeyIdentifier ext (formatKeyID (x509.SubjectKeyId cert))
  else if OID_Equal id x509.OIDExtensionBasicConstraints then
    let isCA := Strings.ToUpper (Fmt.CA_t (x509.IsCA cert)) in
    set_BasicConstraints ext (Some isCA)
  else if OID_Equal id x509.OIDExtensionSubjectAltName then
    let buf := EmptyString in
    let buf := fold_left (fun buf name => commaAppend buf ("DNS:" +:+ name))
                 (elems (x509.DNSNames cert)) buf in
    let buf := fold_left (fun buf email => commaAppend buf ("email:" +:+ email))
                 (x509.EmailAddresses cert) buf in
    let buf := fold_left (fun buf ip => commaAppend buf ("IP Address:" +:+ ip))
                 (x509.IPAddresses cert) buf in
    set_SubjectAltName ext (Some buf)
  else if OID_Equal id x509.OIDExtensionAuthorityInfoAccess then
    let buf := EmptyString in
    let buf := fold_left (fun buf issuer => commaAppend buf ("URI:" +:+ issuer))
                 (x509.IssuingCertificateURL cert) buf in
    let buf := fold_left (fun buf ocsp => commaAppend buf ("URI:" +:+ ocsp))
                 (x509.OCSPServer cert) buf in
    set_AuthorityInfoAccess ext (Some buf)
  else if OID_Equal id x509.OIDExtensionCTPoison then
    set_CTLPoisonByte ext true
  else ext.

(** The validation type: the policy identifiers, then the two checks on the
    subject. *)
Definition validationType (PolicyOIDSString : string)
    (subjectO : option string) (aggregated : string) : string :=
  let ValidationType := "OV" in
  let ValidationType :=
    if Strings.Contains PolicyOIDSString "2.23.140.1.2.1" then "DV"
    else if Strings.Contains PolicyOIDSString "2.23.140.1.2.2" then "OV"
    else if Strings.Contains PolicyOIDSString "2.23.140.1.2.3" then "IV"
    else if Strings.Contains PolicyOIDSString "2.23.140.1.1" then "EV"
    else ValidationType in
  let ValidationType :=
    match subjectO with
    | None => "DV"
    | Some _ => ValidationType
    end in
  let ValidationType :=
    if Strings.Contains aggregated "1.3.6.1.4.1.311.60.2.1.3" then "EV"
    else ValidationType in
  ValidationType.

(** The body of the loop that removes the duplicates of [regDomainSlice]. *)
Definition dedup_step (st : gmap string bool * slice string) (v : string)
    : gmap string bool * slice string :=
  let '(seenRegDomain, regDomainResult) := st in
  if negb (default false (seenRegDomain !! v))
  then (<[v := true]> seenRegDomain, append regDomainResult v)
  else st.

Definition set_hashes (l : certstream.LeafCertT) (fingerprint sha1 sha256 : string)
    : certstream.LeafCertT :=
  {| certstream.AllDomains := certstream.AllDomains l;
     certstream.AllRegDomains := certstream.AllRegDomains l;
     certstream.AsDER := certstream.AsDER l;
     certstream.Extensions := certstream.Extensions l;
     certstream.Fingerprint := fingerprint;
     certstream.SHA1 := sha1;
     certstream.SHA256 := sha256;
     certstream.NotAfter := certstream.NotAfter l;
     certstream.NotBefore := certstream.NotBefore l;
     certstream.SerialNumber := certstream.SerialNumber l;
     certstream.SignatureAlgorithm := certstream.SignatureAlgorithm l;
     certstream.KeyType := certstream.KeyType l;
     certstream.IsCA := certstream.IsCA l;
     certstream.Subject := certstream.Subject l;
     certstream.Issuer := certstream.Issuer l;
     certstream.ValidationType := certstream.ValidationType l;
     certstream.CertType := certstream.CertType l;
     certstream.CertTypeExt := certstream.CertTypeExt l;
     certstream.CAOwner := certstream.CAOwner l |}.

Definition set_AsDER (l : certstream.LeafCertT) (asDER : string) : certstream.LeafCertT :=
  {| certstream.AllDomains := certstream.AllDomains l;
     certstream.AllRegDomains := certstream.AllRegDomains l;
     certstream.AsDER := asDER;
     certstream.Extensions := certstream.Extensions l;
     certstream.Fingerprint := certstream.Fingerprint l;
     certstream.SHA1 := certstream.SHA1 l;
     certstream.SHA256 := certstream.SHA256 l;
     certstream.NotAfter := certstream.NotAfter l;
     certstream.NotBefore := certstream.NotBefore l;
     certstream.SerialNumber := certstream.SerialNumber l;
     certstream.SignatureAlgorithm := certstream.SignatureAlgorithm l;
     certstream.KeyType := certstream.KeyType l;
     certstream.IsCA := certstream.IsCA l;
     certstream.Subject := certstream.Subject l;
     certstream.Issuer := certstream.Issuer l;
     certstream.ValidationType := certstream.ValidationType l;
     certstream.CertType := certstream.CertType l;
     certstream.CertTypeExt := certstream.CertTypeExt l;
     certstream.CAOwner := certstream.CAOwner l |}.

Definition set_Data_UpdateType (updateType : string) (d : certstream.DataT) : certstream.DataT :=
  {| certstream.CertIndex := certstream.CertIndex d;
     certstream.CertLink := certstream.CertLink d;
     certstream.Seen := certstream.Seen d;
     certstream.Source := certstream.Source d;
     certstream.UpdateType := updateType;
     certstream.LeafCert := certstream.LeafCert d;
     certstream.Chain := certstream.Chain d |}.

(** [entry.Data.UpdateType = updateType] *)
Definition set_UpdateType (updateType : string) (e : certstream.Entry) : certstream.Entry :=
  {| certstream.Data := set_Data_UpdateType updateType (certstream.Data e);
     certstream.MessageType := certstream.MessageType e |}.

Section Parser.

Context `{Library}.

Definition calculateSHA1 (data : list byte) : string := calculateHash data sha1_New.
Definition calculateSHA256 (data : list byte) : string := calculateHash data sha256_New.

(** A type assertion on the key that fails panics. *)
Definition parseKeyType (keyAlg : Z) (rawKey : list byte) : Go string :=
  match keyAlg with
  | 0 => Ret "Unknown"
  | 1 =>
      match ParsePKIXPublicKey rawKey with
      | Some (x509.rsa_PublicKey KeySize) =>
          Ret ("RSA" +:+ Strconv.Itoa (BitLen KeySize))
      | Some _ => Panic "interface conversion: not *rsa.PublicKey"
      | None => Ret "Unknown"
      end
  | 2 =>
      match ParsePKIXPublicKey rawKey with
      | Some (x509.dsa_PublicKey KeySize) =>
          Ret ("DSA" +:+ Strconv.Itoa (BitLen KeySize))
      | Some _ => Panic "interface conversion: not *dsa.PublicKey"
      | None => Ret "Unknown"
      end
  | 3 =>
      match ParsePKIXPublicKey rawKey with
      | Some (x509.ecdsa_PublicKey KeySize) =>
          Ret ("ECDSA" +:+ Strconv.Itoa (BitLen KeySize))
      | Some _ => Panic "interface conversion: not *ecdsa.PublicKey"
      | None => Ret "Unknown"
      end
  | _ => Ret "Unknown"
  end.

(** The body of the loop over [leafCert.AllDomains]; the state is
    [wildcardCount], [regDomainSlice] and [domainAlreadyAdded]. *)
Definition domain_step (CN : string) (st : Z * list string * bool) (domain : string)
    : Z * list string * bool :=
  let '(wildcardCount, regDomainSlice, domainAlreadyAdded) := st in
  let wildcardCount :=
    if Strings.Contains domain "*" then wildcardCount + 1 else wildcardCount in
  let regDomainSlice :=
    if negb (ParseIP domain) then
      match EffectiveTLDPlusOne domain with
      | None => regDomainSlice ++ [domain]
      | Some regDomain => regDomainSlice ++ [regDomain]
      end
    else regDomainSlice ++ [domain] in
  let domainAlreadyAdded :=
    if String.eqb domain CN then true else domainAlreadyAdded in
  (wildcardCount, regDomainSlice, domainAlreadyAdded).

(** [CAOwners] is the package variable the watcher refreshes. *)
Definition leafCertFromX509cert (CAOwners : option (gmap string string))
    (cert : x509.Certificate) : Go certstream.LeafCertT :=
  KeyType ← parseKeyType (x509.PublicKeyAlgorithm cert) (x509.RawSubjectPublicKeyInfo cert);
  let AllDomains : slice string :=
    match x509.DNSNames cert with
    | None => Some []
    | Some l => Some l
    end in
  let IsCA := x509.IsCA cert in
  let Subject := buildSubject (x509.Subject cert) in
  CN ← deref (certstream.CN Subject);
  let '(wildcardCount, regDomainSlice, AllDomains) :=
    if negb (String.eqb CN EmptyString) && negb IsCA then
      let '(wildcardCount, regDomainSlice, domainAlreadyAdded) :=
        fold_left (domain_step CN) (elems AllDomains) (0, [], false) in
      if negb domainAlreadyAdded
      then (wildcardCount, regDomainSlice, append AllDomains CN)
      else (wildcardCount, regDomainSlice, AllDomains)
    else (0, [], AllDomains) in
  let Issuer := buildSubject (x509.Issuer cert) in
  let AsDER := EncodeToString (x509.Raw cert) in
  let Fingerprint := calculateSHA1 (x509.Raw cert) in
  let SHA1 := Fingerprint in
  let SHA256 := calculateSHA256 (x509.Raw cert) in
  let Extensions := fold_left (extension_step cert) (x509.Extensions cert) Extensions_zero in
  let PolicyOIDSString := Fmt.d_oids (x509.PolicyIdentifiers cert) in
  Aggregated ← deref (certstream.Aggregated Subject);
  let ValidationType := validationType PolicyOIDSString (certstream.O Subject) Aggregated in
  let CertType :=
    if 0 <? wildcardCount then "Wildcard"
    else if 2 <? len AllDomains then "Multi"
    else "Single" in
  let SANCount := len AllDomains in
  let WildcardSANCount := wildcardCount in
  let SingleSANCount := SANCount - WildcardSANCount in
  let '(_, regDomainResult) := fold_left dedup_step regDomainSlice (∅, None) in
  leafAKI ← deref (formatKeyIDShort (x509.AuthorityKeyId cert));
  let CAOwner :=
    match CAOwners ≫= (fun m => m !! leafAKI) with
    | Some caOwnerCheck => caOwnerCheck
    | None => "unknown"
    end in
  mret {|
    certstream.AllDomains := AllDomains;
    certstream.AllRegDomains := regDomainResult;
    certstream.AsDER := AsDER;
    certstream.Extensions := Extensions;
    certstream.Fingerprint := Fingerprint;
    certstream.SHA1 := SHA1;
    certstream.SHA256 := SHA256;
    certstream.NotAfter := x509.NotAfter cert;
    certstream.NotBefore := x509.NotBefore cert;
    certstream.SerialNumber := formatSerialNumber (x509.SerialNumber cert);
    certstream.SignatureAlgorithm := parseSignatureAlgorithm (x509.SignatureAlgorithm_ cert);
    certstream.KeyType := KeyType;
    certstream.IsCA := IsCA;
    certstream.Subject := Subject;
    certstream.Issuer := Issuer;
    certstream.ValidationType := ValidationType;
    certstream.CertType := CertType;
    certstream.CertTypeExt :=
      {| certstream.SANCount := SANCount;
         certstream.WildcardSANCount := WildcardSANCount;
         certstream.SingleSANCount := SingleSANCount |};
    certstream.CAOwner := CAOwner
  |}.

(** The loop of [parseCertificateChain]: the first certificate that does
    not parse ends it with the error. *)
Fixpoint parseCertificateChain (CAOwners : option (gmap string string))
    (chain : list (list byte)) : Go (option (list certstream.LeafCertT)) :=
  match chain with
  | [] => mret (Some [])
  | chainEntry :: rest =>
      match ParseCertificate chainEntry with
      | None => mret None
      | Some myCert =>
          leafCert ← leafCertFromX509cert CAOwners myCert;
          tail ← parseCertificateChain CAOwners rest;
          mret (fmap (M:=option) (cons leafCert) tail)
      end
  end.

(** [now] is [time.Now().UnixMilli()]. The result is [None] when
    [parseData] returns an error. *)
Definition parseData (now : Z) (CAOwners : option (gmap string string))
    (entry : ct.RawLogEntry) (operatorName logName ctURL : string)
    : Go (option certstream.DataT) :=
  let certLink :=
    ctURL +:+ "/ct/v1/get-entries?start=" +:+ Strconv.Itoa (ct.Index entry)
          +:+ "&end=" +:+ Strconv.Itoa (ct.Index entry) in
  let source :=
    {| certstream.Name := logName;
       certstream.URL := ctURL;
       certstream.Operator := operatorName;
       certstream.NormalizedURL := normalizeCtlogURL ctURL |} in
  match ToLogEntry entry with
  | None => mret None
  | Some logEntry =>
      let selected :=
        match ct.X509Cert logEntry, ct.Precert logEntry with
        | Some X509Cert, _ => Some (X509Cert, x509.Raw X509Cert, false)
        | None, Some Precert =>
            Some (ct.TBSCertificate Precert, ct.Submitted Precert, true)
        | None, None => None
        end in
      match selected with
      | None => mret None
      | Some (cert, rawData, isPrecert) =>
          LeafCert ← leafCertFromX509cert CAOwners cert;
          let LeafCert :=
            if isPrecert then
              let calculatedHash := calculateSHA1 rawData in
              set_hashes LeafCert calculatedHash calculatedHash (calculateSHA256 rawData)
            else LeafCert in
          let certAsDER := EncodeToString (ct.Cert entry) in
          let LeafCert := set_AsDER LeafCert certAsDER in
          Chain ← parseCertificateChain CAOwners (ct.Chain logEntry);
          match Chain with
          | None => mret None
          | Some Chain =>
              mret (Some {|
                certstream.CertIndex := ct.Index entry;
                certstream.CertLink := certLink;
                certstream.Seen := now;
                certstream.Source := source;
                certstream.UpdateType := "X509LogEntry";
                certstream.LeafCert := LeafCert;
                certstream.Chain := Chain |})
          end
      end
  end.

(** [rawEntry] is a pointer. *)
Definition parseCertstreamEntry (now : Z) (CAOwners : option (gmap string string))
    (rawEntry : option ct.RawLogEntry) (operatorName logname ctURL : string)
    : Go (option certstream.Entry) :=
  match rawEntry with
  | None => mret None
  | Some rawEntry =>
      data ← parseData now CAOwners rawEntry operatorName logname ctURL;
      match data with
      | None => mret None
      | Some data =>
          mret (Some {| certstream.Data := data;
                        certstream.MessageType := "certificate_update" |})
      end
  end.

(** ** ct-watcher.go: the callbacks of a worker *)

Record worker : Type := {
  name : string;
  operatorName : string;
  ctURL : string
}.

(** The entry that [foundCertCallback] sends on [w.entryChan], if any. *)
Definition foundCertCallback (now : Z) (CAOwners : option (gmap string string))
    (w : worker) (rawEntry : option ct.RawLogEntry) : Go (option certstream.Entry) :=
  entry ← parseCertstreamEntry now CAOwners rawEntry (operatorName w) (name w) (ctURL w);
  mret (fmap (M:=option) (set_UpdateType "X509LogEntry") entry).

(** The entry that [foundPrecertCallback] sends on [w.entryChan], if any. *)
Definition foundPrecertCallback (now : Z) (CAOwners : option (gmap string string))
    (w : worker) (rawEntry : option ct.RawLogEntry) : Go (option certstream.Entry) :=
  entry ← parseCertstreamEntry now CAOwners rawEntry (operatorName w) (name w) (ctURL w);
  mret (fmap (M:=option) (set_UpdateType "PrecertLogEntry") entry).

End Parser.

(** ** ct-watcher.go: the CA-owner catalog *)

(** What one [client.Get] returns: an error, or a response with its status
    code and its body. The body is given as the results that the calls of
    [reader.Read] of [encoding/csv] return on it, [None] for an error, the
    end of the list for [io.EOF]. *)
Inductive http_result : Type :=
| GetError
| Response (StatusCode : Z) (Body : list (option (list string))).

Definition StatusOK : Z := 200.

(** The retry loop of [DownloadAndParseCSV]: [attempt] counts from 1 and
    [remaining] is [maxRetries - attempt]. [get n] is the outcome of the
    [n]-th request. The result is the body of the first response with
    status 200, or [None] when the last attempt fails too. *)
Fixpoint download (get : nat -> http_result) (attempt remaining : nat)
    : option (list (option (list string))) :=
  match get attempt with
  | Response code body =>
      if code =? StatusOK then Some body
      else match remaining with
           | O => None
           | S remaining => download get (S attempt) remaining
           end
  | GetError =>
      match remaining with
      | O => None
      | S remaining => download get (S attempt) remaining
      end
  end.

Section Catalog.

Context `{Library}.

(** The loop over the records after the first. *)
Fixpoint read_records (records : list (option (list string)))
    (keyColIndex valueColIndex : Z) (result : gmap string string)
    : Go (option (gmap string string)) :=
  match records with
  | [] => mret (Some result)
  | None :: _ => mret None
  | Some record :: rest =>
      key ← index record (Z.to_nat keyColIndex);
      let decodedBytes := DecodeString key in
      let hexKey := Hex.EncodeToString decodedBytes in
      let hexKey := Strings.ToLower hexKey in
      value ← index record (Z.to_nat valueColIndex);
      read_records rest keyColIndex valueColIndex (<[hexKey := value]> result)
  end.

(** The map and the error that [DownloadAndParseCSV] returns: the map is
    nil ([None]) exactly when the error is not ([true]). *)
Definition DownloadAndParseCSV (get : nat -> http_result)
    (keyColIndex valueColIndex : Z) (skipHeader : bool)
    : Go (option (gmap string string) * bool) :=
  let result : gmap string string := ∅ in
  let maxRetries := 3%nat in
  match download get 1 (maxRetries - 1) with
  | None => mret (None, true)
  | Some body =>
      match body with
      | [] => mret (None, true)
      | None :: _ => mret (None, true)
      | Some firstRow :: rest =>
          let n := Z.of_nat (length firstRow) in
          if (keyColIndex <? 0) || (n <=? keyColIndex) then mret (None, true)
          else if (valueColIndex <? 0) || (n <=? valueColIndex) then mret (None, true)
          else
            result ←
              (if negb skipHeader then
                 key ← index firstRow (Z.to_nat keyColIndex);
                 value ← index firstRow (Z.to_nat valueColIndex);
                 mret (<[key := value]> result)
               else mret result);
            r ← read_records rest keyColIndex valueColIndex result;
            match r with
            | None => mret (None, true)
            | Some result => mret (Some result, false)
            end
      end
  end.

(** The first statement of [addNewlyAvailableLogs]:
    [CAOwners, _ = DownloadAndParseCSV(ccadbURL, 18, 0, true)].
    The result is the new value of the package variable [CAOwners]; its
    old value is not read. *)
Definition addNewlyAvailableLogs_CAOwners (get : nat -> http_result)
    (CAOwners : option (gmap string string)) : Go (option (gmap string string)) :=
  r ← DownloadAndParseCSV get 18 0 true;
  mret (fst r).

End Catalog.

(** ** ct-watcher.go: the start of a worker *)

(** The first lines of [startDownloadingCerts]: the value left in [w.ctURL]. *)
Definition startDownloadingCerts_ctURL (ctURL : string) : string :=
  let ctURL := Strings.TrimRight ctURL "/" in
  if negb (Strings.HasPrefix ctURL "https://") && negb (Strings.HasPrefix ctURL "http://")
  then "https://" +:+ ctURL
  else ctURL.

(** [int64(v)] for [v] of type [uint64] *)
Definition int64_of_uint64 (v : Z) : Z :=
  if v <? 9223372036854775808 then v else v - 18446744073709551616.

(** The body of the loop over [config.AppConfig.CTLogs.StartIndex]. *)
Definition startIndex_step (ctURL : string) (logStart : Z) (element : string) : Go Z :=
  if Strings.Contains ctURL element then
    let logStartIndex := Strings.Split element " " in
    field ← index logStartIndex 1;
    let newStartIndex := fst (Strconv.Atoi field) in
    if 0 <? newStartIndex then mret newStartIndex else mret logStart
  else mret logStart.

Fixpoint startIndex_loop (ctURL : string) (logStart : Z) (StartIndex : list string) : Go Z :=
  match StartIndex with
  | [] => mret logStart
  | element :: rest =>
      logStart ← startIndex_step ctURL logStart element;
      startIndex_loop ctURL logStart rest
  end.

(** The value of [logStart] that [runWorker] passes to the scanner, for the
    tree size of the signed tree head, the URL of the worker and the
    configured list [StartIndex]. *)
Definition runWorker_logStart (TreeSize : Z) (ctURL : string) (StartIndex : list string) : Go Z :=
  let logStart := int64_of_uint64 TreeSize in
  startIndex_loop ctURL logStart StartIndex.

(** ** ct-watcher.go: the workers of the watcher *)

Module loglist3.

Record Log : Type := {
  Description : string;
  URL : string
}.

Record Operator : Type := {
  Name : string;
  Logs : list Log
}.

Record LogList : Type := {
  Operators : list Operator
}.

End loglist3.

(** The loop over [w.workers] that looks for a worker with the URL. *)
Definition alreadyWatched (workers : list worker) (newURL : string) : bool :=
  existsb (fun ctWorker => String.eqb (normalizeCtlogURL (ctURL ctWorker)) newURL) workers.

(** The body of the loop over the logs of an operator; the state is
    [w.workers] and [newCTs]. The goroutine that the loop starts for a new
    worker is not part of the state. *)
Definition log_step (operator : loglist3.Operator) (st : list worker * Z)
    (transparencyLog : loglist3.Log) : list worker * Z :=
  let '(workers, newCTs) := st in
  let newURL := normalizeCtlogURL (loglist3.URL transparencyLog) in
  if negb (alreadyWatched workers newURL) then
    let ctWorker :=
      {| name := loglist3.Description transparencyLog;
         operatorName := loglist3.Name operator;
         ctURL := loglist3.URL transparencyLog |} in
    (workers ++ [ctWorker], newCTs + 1)
  else st.

Definition operator_step (st : list worker * Z) (operator : loglist3.Operator)
    : list worker * Z :=
  fold_left (log_step operator) (loglist3.Logs operator) st.

(** The second half of [addNewlyAvailableLogs]: [logList] is what
    [getAllLogs] returns, [None] for an error. The result is [w.workers]
    and the count [newCTs] that is logged. *)
Definition addNewlyAvailableLogs_workers (logList : option loglist3.LogList)
    (workers : list worker) : list worker * Z :=
  match logList with
  | None => (workers, 0)
  | Some logList => fold_left operator_step (loglist3.Operators logList) (workers, 0)
  end.

(** ** ct-watcher.go: [certHandler] *)

(** What [certHandler] hands to the packages [web] and [metrics]. *)
Inductive sink_call : Type :=
| SetExampleCert (entry : certstream.Entry)
| Broadcast (entry : certstream.Entry)
| Inc (operator url : string).

(** [processed++] on an [int64] *)
Definition int64_succ (n : Z) : Z :=
  if n =? 9223372036854775807 then - 9223372036854775808 else n + 1.

(** One turn of the loop of [certHandler], for the entry it receives; the
    state is [processed] and the calls made so far. *)
Definition certHandler_step (st : Z * list sink_call) (entry : certstream.Entry)
    : Z * list sink_call :=
  let '(processed, calls) := st in
  let processed := int64_succ processed in
  let calls :=
    if Z.rem processed 1000 =? 0 then calls ++ [SetExampleCert entry] else calls in
  let calls := calls ++ [Broadcast entry] in
  let url := certstream.NormalizedURL (certstream.Source (certstream.Data entry)) in
  let operator := certstream.Operator (certstream.Source (certstream.Data entry)) in
  let calls := calls ++ [Inc operator url] in
  (processed, calls).

(** [certHandler] on the entries that arrive on [entryChan], in order. *)
Definition certHandler (entries : list certstream.Entry) : Z * list sink_call :=
  fold_left certHandler_step entries (0, []).

(** ** The words of the specification *)

(** Colon-separated uppercase hex pairs of a digest. *)
Definition colon_hex_upper (digest : list byte) : string :=
  Strings.Join (map (fun b => Strings.ToUpper (Hex.of_byte b)) digest) ":".

(** Duplicates removed, the first occurrence of each entry kept. *)
Fixpoint dedup_first (l : list string) : list string :=
  match l with
  | [] => []
  | x :: r => x :: filter (fun y => y ≠ x) (dedup_first r)
  end.

(** An entry that the loop over [regDomainSlice] has not met. *)
Definition unseen (seenRegDomain : gmap string bool) (v : string) : Prop :=
  default false (seenRegDomain !! v) = false.

#[global] Instance unseen_dec seen v : Decision (unseen seen v) :=
  decide (default false (seen !! v) = false).

(** The registrable domain of an entry when it resolves, the entry itself
    otherwise; an IP literal passes through. *)
Definition registrable `{Library} (domain : string) : string :=
  if ParseIP domain then domain
  else default domain (EffectiveTLDPlusOne domain).

(** The key that [ParsePKIXPublicKey] returns has the type that
    [PublicKeyAlgorithm] names: what the parser of package [x509] ensures
    for the certificates it returns, both fields being read from the same
    subject public key info. *)
Definition key_type_agrees `{Library} (cert : x509.Certificate) : bool :=
  match ParsePKIXPublicKey (x509.RawSubjectPublicKeyInfo cert) with
  | None => true
  | Some key =>
      match x509.PublicKeyAlgorithm cert, key with
      | 1, x509.rsa_PublicKey _ => true
      | 2, x509.dsa_PublicKey _ => true
      | 3, x509.ecdsa_PublicKey _ => true
      | 1, _ | 2, _ | 3, _ => false
      | _, _ => true
      end
  end.

(** No URL scheme at the start and no slash at the end. *)
Definition normalized (url : string) : Prop :=
  Strings.HasPrefix url "http://" = false
  ∧ Strings.HasPrefix url "https://" = false
  ∧ Strings.HasSuffix url "/" = false.

Definition set_Seen (seen : Z) (e : certstream.Entry) : certstream.Entry :=
  let d := certstream.Data e in
  {| certstream.Data :=
       {| certstream.CertIndex := certstream.CertIndex d;
          certstream.CertLink := certstream.CertLink d;
          certstream.Seen := seen;
          certstream.Source := certstream.Source d;
          certstream.UpdateType := certstream.UpdateType d;
          certstream.LeafCert := certstream.LeafCert d;
          certstream.Chain := certstream.Chain d |};
     certstream.MessageType := certstream.MessageType e |}.

(** The result of a parse with the clock reading replaced. *)
Definition with_Seen (seen : Z) (r : Go (option certstream.Entry))
    : Go (option certstream.Entry) :=
  match r with
  | Ret (Some e) => Ret (Some (set_Seen seen e))
  | _ => r
  end.

(** The table behind [keyUsageToString]: the flags in the order they are
    tested, each with its name. *)
Definition keyUsageNames : list (Z * string) :=
  [(x509.KeyUsageDigitalSignature, "Digital Signature");
   (x509.KeyUsageContentCommitment, "Content Commitment");
   (x509.KeyUsageKeyEncipherment, "Key Encipherment");
   (x509.KeyUsageDataEncipherment, "Data Encipherment");
   (x509.KeyUsageKeyAgreement, "Key Agreement");
   (x509.KeyUsageCertSign, "Certificate Signing");
   (x509.KeyUsageCRLSign, "CRL Signing");
   (x509.KeyUsageEncipherOnly, "Encipher Only");
   (x509.KeyUsageDecipherOnly, "Decipher Only")].

(** The entries of the subject alternative name, in the order of the
    groups. *)
Definition sanEntries (cert : x509.Certificate) : list string :=
  map (fun name => "DNS:" +:+ name) (elems (x509.DNSNames cert))
  ++ map (fun email => "email:" +:+ email) (x509.EmailAddresses cert)
  ++ map (fun ip => "IP Address:" +:+ ip) (x509.IPAddresses cert).

(** The calls that [certHandler] makes for its [n]-th entry, counted
    from 1. *)
Definition calls_for (n : Z) (entry : certstream.Entry) : list sink_call :=
  (if Z.rem n 1000 =? 0 then [SetExampleCert entry] else [])
  ++ [Broadcast entry;
      Inc (certstream.Operator (certstream.Source (certstream.Data entry)))
          (certstream.NormalizedURL (certstream.Source (certstream.Data entry)))].

Fixpoint calls_from (n : Z) (entries : list certstream.Entry) : list sink_call :=
  match entries with
  | [] => []
  | entry :: rest => calls_for n entry ++ calls_from (n + 1) rest
  end.

(** The entries among the calls that were handed to the broadcast. *)
Definition broadcasts (calls : list sink_call) : list certstream.Entry :=
  omap (fun call => match call with Broadcast entry => Some entry | _ => None end) calls.

(** The counters among the calls that were ticked. *)
Definition increments (calls : list sink_call) : list (string * string) :=
  omap (fun call => match call with Inc operator url => Some (operator, url) | _ => None end)
    calls.

(** The key and the owner that a record of the catalog file holds. *)
Definition record_key `{Library} (keyColIndex : Z) (record : list string) : string :=
  Hex.EncodeToString (DecodeString (nth (Z.to_nat keyColIndex) record EmptyString)).

Definition record_value (valueColIndex : Z) (record : list string) : string :=
  nth (Z.to_nat valueColIndex) record EmptyString.

(** The records that [reader.Read] returns have the number of fields of
    the first record; one with another number is returned as an error. *)
Definition uniform (n : nat) (records : list (option (list string))) : Prop :=
  Forall (λ record, ∀ fields, record = Some fields → length fields = n) records.



(** A URL of a log as the log list has them: an optional scheme and a rest
    that starts with no scheme, holds more than a slash and does not end
    with two slashes. *)
Definition log_url (scheme rest : string) : Prop :=
  (scheme = EmptyString ∨ scheme = "http://" ∨ scheme = "https://")
  ∧ Strings.HasPrefix rest "http://" = false
  ∧ Strings.HasPrefix rest "https://" = false
  ∧ Strings.HasSuffix rest "//" = false
  ∧ rest ≠ EmptyString
  ∧ rest ≠ "/".

(** The number of entries with a wildcard. *)
Definition wildcardSANs (domains : list string) : Z :=
  Z.of_nat (length (filter (fun d => Strings.Contains d "*" = true) domains)).

(** ** A library and certificates for the examples *)

Module Sample.

(** The last two labels of a host name: the registrable domain of a host
    under [com]. *)
Definition lastTwoLabels (domain : string) : option string :=
  match rev (Strings.Split domain ".") with
  | tld :: sld :: _ =>
      if ((0 <? String.length tld) && (0 <? String.length sld))%nat
      then Some (sld +:+ "." +:+ tld) else None
  | _ => None
  end.

Fixpoint digits_and_dots (s : string) : bool :=
  match s with
  | EmptyString => true
  | String c r =>
      (Ascii.eqb c "."%char || bool_decide (is_Some (Strconv.digit_of c)))
      && digits_and_dots r
  end.

(** Dotted decimal text is taken for an IPv4 literal. *)
Definition isIPv4 (s : string) : bool :=
  (0 <? String.length s)%nat && digits_and_dots s.

Definition alphabet : string :=
  "ABCDEFGHIJKLMNOPQRSTUVWXYZabcdefghijklmnopqrstuvwxyz0123456789+/".

Definition sextet (n : N) : ascii :=
  default "A"%char (String.get (N.to_nat n) alphabet).

Fixpoint b64_encode (src : list byte) : string :=
  match src with
  | [] => EmptyString
  | [a] =>
      let x := Byte.to_N a in
      String (sextet (x / 4)%N) (String (sextet ((x mod 4) * 16)%N) "==")
  | [a; b] =>
      let x := Byte.to_N a in
      let y := Byte.to_N b in
      String (sextet (x / 4)%N)
        (String (sextet ((x mod 4) * 16 + y / 16)%N)
           (String (sextet ((y mod 16) * 4)%N) "="))
  | a :: b :: c :: r =>
      let x := Byte.to_N a in
      let y := Byte.to_N b in
      let z := Byte.to_N c in
      String (sextet (x / 4)%N)
        (String (sextet ((x mod 4) * 16 + y / 16)%N)
           (String (sextet ((y mod 16) * 4 + z / 64)%N)
              (String (sextet (z mod 64)%N) (b64_encode r))))
  end.

Fixpoint position (c : ascii) (s : string) (i : N) : option N :=
  match s with
  | EmptyString => None
  | String d r => if Ascii.eqb c d then Some i else position c r (i + 1)%N
  end.

Definition value (c : ascii) : option N := position c alphabet 0%N.

Definition octet (n : N) : byte := default x00 (Byte.of_N (n mod 256)%N).

(** The bytes decoded up to the first byte that is not of the alphabet. *)
Fixpoint b64_decode (s : string) : list byte :=
  match s with
  | String a (String b (String c (String d r))) =>
      match value a, value b with
      | Some x, Some y =>
          octet (x * 4 + y / 16) ::
          match value c with
          | Some z =>
              octet ((y mod 16) * 16 + z / 4) ::
              match value d with
              | Some w => octet ((z mod 4) * 64 + w) :: b64_decode r
              | None => []
              end
          | None => []
          end
      | _, _ => []
      end
  | _ => []
  end.

(** A stand-in for a hash of [size] bytes: the first bytes of the data,
    padded with zeros. *)
Definition digest (size : nat) (data : list byte) : list byte :=
  take size (data ++ replicate size x00).

Definition hash (size : nat) (pos : (0 < size)%nat) : Hash :=
  {| Sum := digest size;
     Size := size;
     Size_pos := pos;
     Sum_length := fun data =>
       ltac:(unfold digest;
             rewrite length_take, length_app, length_replicate; lia) |}.

Definition noName : pkix.Name :=
  {| pkix.Country := None; pkix.Organization := None;
     pkix.OrganizationalUnit := None; pkix.Locality := None;
     pkix.Province := None; pkix.StreetAddress := None;
     pkix.PostalCode := None; pkix.SerialNumber := EmptyString;
     pkix.CommonName := EmptyString; pkix.Names := [] |}.

Definition OIDCommonName : OID := [2; 5; 4; 3].
Definition OIDOrganization : OID := [2; 5; 4; 10].
Definition OIDJurisdictionCountry : OID := [1; 3; 6; 1; 4; 1; 311; 60; 2; 1; 3].

(** A subject as the parser of [pkix] fills it: every attribute is in
    [Names], the common name and the organization also in their fields. *)
Definition subject (CN : string) (O : slice string)
    (more : list pkix.AttributeTypeAndValue) : pkix.Name :=
  {| pkix.Country := None; pkix.Organization := O;
     pkix.OrganizationalUnit := None; pkix.Locality := None;
     pkix.Province := None; pkix.StreetAddress := None;
     pkix.PostalCode := None; pkix.SerialNumber := EmptyString;
     pkix.CommonName := CN;
     pkix.Names :=
       map (fun o => {| pkix.Type_ := OIDOrganization; pkix.Value := o |}) (elems O)
       ++ match CN with
          | EmptyString => []
          | _ => [{| pkix.Type_ := OIDCommonName; pkix.Value := CN |}]
          end
       ++ more |}.

Definition certificate (Subject : pkix.Name) (DNSNames : slice string)
    (IsCA : bool) (PolicyIdentifiers : list OID) : x509.Certificate :=
  {| x509.Raw := [x30; x03; x02; x01; x01];
     x509.RawSubjectPublicKeyInfo := [x03];
     x509.SignatureAlgorithm_ := x509.ECDSAWithSHA256;
     x509.PublicKeyAlgorithm := 3;
     x509.SerialNumber := Some 43981;
     x509.Issuer := subject "Example CA" (Some ["Example Trust"]) [];
     x509.Subject := Subject;
     x509.NotBefore := 1700000000;
     x509.NotAfter := 1707776000;
     x509.KeyUsage := 1;
     x509.Extensions :=
       [{| x509.Id := x509.OIDExtensionKeyUsage |};
        {| x509.Id := x509.OIDExtensionAuthorityKeyId |};
        {| x509.Id := x509.OIDExtensionSubjectAltName |}];
     x509.IsCA := IsCA;
     x509.SubjectKeyId := [];
     x509.AuthorityKeyId := [x1a; x2b; x3c];
     x509.OCSPServer := [];
     x509.IssuingCertificateURL := [];
     x509.DNSNames := DNSNames;
     x509.EmailAddresses := [];
     x509.IPAddresses := [];
     x509.PolicyIdentifiers := PolicyIdentifiers |}.

Definition leaf : x509.Certificate :=
  certificate (subject "www.example.com" None [])
    (Some ["www.example.com"; "example.com"]) false [[2; 23; 140; 1; 2; 1]].

(** A subject public key info that starts with 1 holds an RSA key of
    2048 bits, with 3 an ECDSA key of 256 bits. *)
Definition parsePublicKey (rawKey : list byte) : option x509.PublicKey :=
  match rawKey with
  | x01 :: _ => Some (x509.rsa_PublicKey (2 ^ 2047 + 1))
  | x03 :: _ => Some (x509.ecdsa_PublicKey (2 ^ 255 + 1))
  | _ => None
  end.

(** A raw entry whose [Leaf] starts with 0 is a certificate, with 1 a
    precertificate; the bytes of the entry stand for themselves. *)
Definition toLogEntry (entry : ct.RawLogEntry) : option ct.LogEntry :=
  match ct.Leaf entry with
  | x00 :: _ =>
      Some {| ct.X509Cert := Some leaf; ct.Precert := None;
              ct.Chain := ct.RawChain entry |}
  | x01 :: _ =>
      Some {| ct.X509Cert := None;
              ct.Precert := Some {| ct.Submitted := ct.Cert entry;
                                    ct.TBSCertificate := leaf |};
              ct.Chain := ct.RawChain entry |}
  | _ => None
  end.

#[export] Instance library : Library :=
  {| EffectiveTLDPlusOne := lastTwoLabels;
     ParseIP := isIPv4;
     ParsePKIXPublicKey := parsePublicKey;
     ParseCertificate := fun _ => Some leaf;
     ToLogEntry := toLogEntry;
     EncodeToString := b64_encode;
     DecodeString := b64_decode;
     sha1_New := hash 20 ltac:(lia);
     sha256_New := hash 32 ltac:(lia) |}.

Definition precertEntry : ct.RawLogEntry :=
  {| ct.Index := 7; ct.Cert := [x30; x03; x02; x01; x02]; ct.Leaf := [x01];
     ct.RawChain := [[x30]] |}.

Definition certEntry : ct.RawLogEntry :=
{| ct.Index := 8; ct.Cert := [x30; x03; x02; x01; x01]; ct.Leaf := [x00];
   ct.RawChain := [[x30]; [x31]] |}.

(** A library whose certificate parser refuses an empty input. *)
Definition strict_library : Library :=
{| EffectiveTLDPlusOne := lastTwoLabels;
   ParseIP := isIPv4;
   ParsePKIXPublicKey := parsePublicKey;
   ParseCertificate := fun der => match der with [] => None | _ => Some leaf end;
   ToLogEntry := toLogEntry;
   EncodeToString := b64_encode;
   DecodeString := b64_decode;
   sha1_New := hash 20 ltac:(lia);
   sha256_New := hash 32 ltac:(lia) |}.

Definition noSubject : certstream.SubjectT :=
{| certstream.C := None; certstream.CN := Some EmptyString; certstream.L := None;
   certstream.O := None; certstream.OU := None; certstream.ST := None;
   certstream.Aggregated := Some "{}" |}.

(** An entry as it arrives at the handler. *)
Definition anEntry (index : Z) : certstream.Entry :=
{| certstream.Data :=
     {| certstream.CertIndex := index;
        certstream.CertLink := "https://ct.example.com/log/ct/v1/get-entries";
        certstream.Seen := 1000;
        certstream.Source :=
          {| certstream.Name := "Example Log";
             certstream.URL := "https://ct.example.com/log";
             certstream.Operator := "Example";
             certstream.NormalizedURL := "ct.example.com/log" |};
        certstream.UpdateType := "X509LogEntry";
        certstream.LeafCert :=
          {| certstream.AllDomains := Some [];
             certstream.AllRegDomains := None;
             certstream.AsDER := EmptyString;
             certstream.Extensions := Extensions_zero;
             certstream.Fingerprint := EmptyString;
             certstream.SHA1 := EmptyString;
             certstream.SHA256 := EmptyString;
             certstream.NotAfter := 0;
             certstream.NotBefore := 0;
             certstream.SerialNumber := "00";
             certstream.SignatureAlgorithm := "unknown";
             certstream.KeyType := "Unknown";
             certstream.IsCA := false;
             certstream.Subject := noSubject;
             certstream.Issuer := noSubject;
             certstream.ValidationType := "DV";
             certstream.CertType := "Single";
             certstream.CertTypeExt :=
               {| certstream.SANCount := 0; certstream.WildcardSANCount := 0;
                  certstream.SingleSANCount := 0 |};
             certstream.CAOwner := "unknown" |};
        certstream.Chain := [] |};
   certstream.MessageType := "certificate_update" |}.

Definition aWorker : worker :=
  {| name := "Example Log"; operatorName := "Example";
     ctURL := "https://ct.example.com/log" |}.

End Sample.

(** * Properties *)

#[local] Arguments String.append : simpl nomatch.

(** ** Strings *)

Section StringFacts.

Local Open Scope nat_scope.

Lemma append_nil_r (s : string) : s +:+ EmptyString = s.
Proof. induction s as [|c s IH]; simpl; [done|by rewrite IH]. Qed.

Lemma append_assoc (a b c : string) : (a +:+ b) +:+ c = a +:+ (b +:+ c).
Proof. induction a as [|x a IH]; simpl; [done|by rewrite IH]. Qed.

Lemma length_append (a b : string) :
  String.length (a +:+ b) = String.length a + String.length b.
Proof. induction a as [|x a IH]; simpl; [done|by rewrite IH]. Qed.

Lemma substring_all (s : string) : substring 0 (String.length s) s = s.
Proof. induction s as [|c s IH]; simpl; [done|by rewrite IH]. Qed.

Lemma substring_app_l (t u : string) : substring 0 (String.length t) (t +:+ u) = t.
Proof.
  induction t as [|c t IH]; simpl; [by destruct u|by rewrite IH].
Qed.

Lemma substring_app_r (t u : string) :
  substring (String.length t) (String.length u) (t +:+ u) = u.
Proof. induction t as [|c t IH]; simpl; [apply substring_all|done]. Qed.

Lemma substring_split (s : string) (n : nat) :
  n ≤ String.length s →
  s = substring 0 n s +:+ substring n (String.length s - n) s.
Proof.
  revert n. induction s as [|c s IH]; intros [|n] Hn; simpl in *; try done; try lia.
  - by rewrite substring_all.
  - f_equal. apply IH. lia.
Qed.

Lemma HasPrefix_iff (s p : string) :
  Strings.HasPrefix s p = true ↔ ∃ t, s = p +:+ t.
Proof.
  unfold Strings.HasPrefix. revert s.
  induction p as [|c p IH]; intros [|d s]; simpl.
  - split; [eauto|done].
  - split; [eauto|done].
  - split; [done|intros [t Ht]; done].
  - destruct (ascii_dec c d) as [->|Hne].
    + rewrite IH. split; intros [t Ht]; exists t; simplify_eq; done.
    + split; [done|]. intros [t Ht]. simplify_eq.
Qed.

Lemma HasSuffix_iff (s suf : string) :
  Strings.HasSuffix s suf = true ↔ ∃ t, s = t +:+ suf.
Proof.
  unfold Strings.HasSuffix. split.
  - intros [Hle Heq]%andb_prop.
    apply Nat.leb_le in Hle. apply String.eqb_eq in Heq.
    exists (substring 0 (String.length s - String.length suf) s).
    etrans; [apply (substring_split s (String.length s - String.length suf)); lia|].
    f_equal.
    replace (String.length s - (String.length s - String.length suf))
      with (String.length suf) by lia.
    done.
  - intros [t ->]. rewrite length_append.
    apply andb_true_intro. split; [apply Nat.leb_le; lia|].
    apply String.eqb_eq.
    replace (String.length t + String.length suf - String.length suf)
      with (String.length t) by lia.
    apply substring_app_r.
Qed.

Lemma TrimSuffix_app (t suf : string) : Strings.TrimSuffix (t +:+ suf) suf = t.
Proof.
  unfold Strings.TrimSuffix.
  replace (Strings.HasSuffix (t +:+ suf) suf) with true
    by (symmetry; apply HasSuffix_iff; eauto).
  rewrite length_append.
  replace (String.length t + String.length suf - String.length suf)
    with (String.length t) by lia.
  apply substring_app_l.
Qed.

Lemma TrimPrefix_app (p t : string) : Strings.TrimPrefix (p +:+ t) p = t.
Proof.
  unfold Strings.TrimPrefix.
  replace (Strings.HasPrefix (p +:+ t) p) with true
    by (symmetry; apply HasPrefix_iff; eauto).
  rewrite length_append.
  replace (String.length p + String.length t - String.length p)
    with (String.length t) by lia.
  induction p as [|c p IH]; simpl; [apply substring_all|done].
Qed.

Lemma TrimPrefix_none (s p : string) :
  Strings.HasPrefix s p = false → Strings.TrimPrefix s p = s.
Proof. unfold Strings.TrimPrefix. by intros ->. Qed.

(** Trimming a suffix leaves no prefix that was not there. *)
Lemma HasPrefix_TrimSuffix (s suf p : string) :
  Strings.HasPrefix s p = false →
  Strings.HasPrefix (Strings.TrimSuffix s suf) p = false.
Proof.
  intros Hp. destruct (Strings.HasSuffix s suf) eqn:Hs.
  - apply HasSuffix_iff in Hs as [t ->]. rewrite TrimSuffix_app.
    destruct (Strings.HasPrefix t p) eqn:Ht; [|done].
    apply HasPrefix_iff in Ht as [u ->].
    rewrite append_assoc in Hp.
    assert (Strings.HasPrefix (p +:+ (u +:+ suf)) p = true) as Hq
      by (apply HasPrefix_iff; eauto).
    congruence.
  - unfold Strings.TrimSuffix. by rewrite Hs.
Qed.

Lemma HasSuffix_TrimSuffix (s suf : string) :
  Strings.HasSuffix s (suf +:+ suf) = false →
  Strings.HasSuffix (Strings.TrimSuffix s suf) suf = false.
Proof.
  intros Hss. destruct (Strings.HasSuffix s suf) eqn:Hs.
  - apply HasSuffix_iff in Hs as [t ->]. rewrite TrimSuffix_app.
    destruct (Strings.HasSuffix t suf) eqn:Ht; [|done].
    apply HasSuffix_iff in Ht as [u ->].
    rewrite append_assoc in Hss.
    assert (Strings.HasSuffix (u +:+ (suf +:+ suf)) (suf +:+ suf) = true) as Hq
      by (apply HasSuffix_iff; eauto).
    congruence.
  - unfold Strings.TrimSuffix. by rewrite Hs.
Qed.

End StringFacts.

(** ** The normalized URL *)

Example normalizeCtlogURL_https :
  normalizeCtlogURL "https://ct.example.com/log/" = "ct.example.com/log".
Proof. reflexivity. Qed.

Example normalizeCtlogURL_http :
  normalizeCtlogURL "http://ct.example.com" = "ct.example.com".
Proof. reflexivity. Qed.

Lemma normalized_TrimSuffix (rest : string) :
  Strings.HasPrefix rest "http://" = false →
  Strings.HasPrefix rest "https://" = false →
  Strings.HasSuffix rest "//" = false →
  normalized (Strings.TrimSuffix rest "/").
Proof.
  intros Hhttp Hhttps Hslash. repeat split.
  - by apply HasPrefix_TrimSuffix.
  - by apply HasPrefix_TrimSuffix.
  - by apply HasSuffix_TrimSuffix.
Qed.

(** C9, as stated, fails: only one scheme and one slash are removed, so a
    scheme written twice leaves a scheme and two slashes at the end leave
    one. *)
Lemma normalizeCtlogURL_not_normalized :
  normalizeCtlogURL "https://https://ct.example.com" = "https://ct.example.com"
  ∧ ¬ normalized (normalizeCtlogURL "https://https://ct.example.com")
  ∧ normalizeCtlogURL "ct.example.com//" = "ct.example.com/"
  ∧ ¬ normalized (normalizeCtlogURL "ct.example.com//").
Proof.
  split; [reflexivity|]. split; [intros (_ & Hs & _); vm_compute in Hs; discriminate|].
  split; [reflexivity|]. intros (_ & _ & Hs); vm_compute in Hs; discriminate.
Qed.

(** C9 (amended): for every input that is an optional scheme, "http://" or
    "https://", followed by a rest that starts with no scheme and does not
    end with two slashes, the output of [normalizeCtlogURL] neither starts
    with "http://" or "https://" nor ends with "/". *)
Theorem normalizeCtlogURL_normalized (scheme rest : string) :
  scheme = EmptyString ∨ scheme = "http://" ∨ scheme = "https://" →
  Strings.HasPrefix rest "http://" = false →
  Strings.HasPrefix rest "https://" = false →
  Strings.HasSuffix rest "//" = false →
  normalized (normalizeCtlogURL (scheme +:+ rest)).
Proof.
  intros Hscheme Hhttp Hhttps Hslash. unfold normalizeCtlogURL.
  destruct Hscheme as [->|[->| ->]].
  - change (EmptyString +:+ rest) with rest.
    rewrite (TrimPrefix_none rest "https://") by done.
    rewrite (TrimPrefix_none rest "http://") by done.
    by apply normalized_TrimSuffix.
  - rewrite (TrimPrefix_none ("http://" +:+ rest) "https://") by reflexivity.
    rewrite TrimPrefix_app. by apply normalized_TrimSuffix.
  - rewrite TrimPrefix_app.
    rewrite (TrimPrefix_none rest "http://") by done.
    by apply normalized_TrimSuffix.
Qed.

Lemma normalizeCtlogURL_normalized_witness :
  normalized (normalizeCtlogURL ("https://" +:+ "ct.example.com/log/")).
Proof.
  apply (normalizeCtlogURL_normalized "https://" "ct.example.com/log/").
  - right; right; reflexivity.
  - reflexivity.
  - reflexivity.
  - reflexivity.
Defined.

(** ** The start index of a worker *)

Example runWorker_logStart_default :
  runWorker_logStart 5000 "https://ct.example.com/log" [] = Ret 5000.
Proof. reflexivity. Qed.

(** A token is looked for in the URL whole, with its space and its index. *)
Example runWorker_logStart_whole_token :
  runWorker_logStart 5000 "https://ct.example.com/log 100" ["example.com/log 100"]
  = Ret 100.
Proof. reflexivity. Qed.

(** A token without a space that the URL contains ends the worker. *)
Example runWorker_logStart_panics :
  runWorker_logStart 5000 "https://ct.example.com/log" ["ct.example.com"]
  = Panic "index out of range".
Proof. reflexivity. Qed.

(** C6 fails on the code: the first field of the token "ct.example.com 100"
    is a substring of the URL of the worker and its second field is 100,
    yet the worker starts at the tree size. *)
Theorem runWorker_logStart_token_ignored :
  let ctURL := startDownloadingCerts_ctURL "ct.example.com/log/" in
  let token := "ct.example.com 100" in
  ctURL = "https://ct.example.com/log"
  ∧ Strings.Split token " " = ["ct.example.com"; "100"]
  ∧ Strings.Contains ctURL "ct.example.com" = true
  ∧ Strconv.Atoi "100" = (100, false)
  ∧ runWorker_logStart 5000 ctURL [token] = Ret 5000.
Proof. repeat split; reflexivity. Qed.

(** ** The CA-owner catalog *)

Section CatalogFacts.

Context `{Library}.

Lemma DownloadAndParseCSV_failure (get : nat → http_result)
    (keyColIndex valueColIndex : Z) (skipHeader : bool) :
  download get 1 2 = None →
  DownloadAndParseCSV get keyColIndex valueColIndex skipHeader = Ret (None, true).
Proof.
  intros Hget. unfold DownloadAndParseCSV. cbv zeta.
  change (3 - 1)%nat with 2%nat. by rewrite Hget.
Qed.

(** Whatever the catalog held, a refresh that fails leaves a nil map. *)
Lemma addNewlyAvailableLogs_failure (get : nat → http_result)
    (CAOwners : option (gmap string string)) :
  download get 1 2 = None →
  addNewlyAvailableLogs_CAOwners get CAOwners = Ret None.
Proof.
  intros Hget. unfold addNewlyAvailableLogs_CAOwners.
  by rewrite DownloadAndParseCSV_failure.
Qed.

(** C1 fails on the code: with every request failing,
    [DownloadAndParseCSV] returns a nil map and an error, the error is
    dropped and the nil map replaces a catalog that held an owner. *)
Theorem addNewlyAvailableLogs_drops_catalog :
  let previous : gmap string string := {["1a2b3c" := "Example CA"]} in
  let get := fun _ : nat => GetError in
  previous !! "1a2b3c" = Some "Example CA"
  ∧ DownloadAndParseCSV get 18 0 true = Ret (None, true)
  ∧ addNewlyAvailableLogs_CAOwners get (Some previous) = Ret None.
Proof.
  split; [apply lookup_singleton_eq|].
  split; [by apply DownloadAndParseCSV_failure|by apply addNewlyAvailableLogs_failure].
Qed.

End CatalogFacts.

(** ** Fingerprints *)

Section HashFacts.

Local Open Scope nat_scope.

Lemma map_ascii_append (f : ascii → ascii) (a b : string) :
  Strings.map_ascii f (a +:+ b) = Strings.map_ascii f a +:+ Strings.map_ascii f b.
Proof. induction a as [|c a IH]; simpl; [done|by rewrite IH]. Qed.

Lemma calculateHash_loop_cons (c : ascii) (r : string) (i : nat) (result : string) :
  calculateHash_loop (String c r) i result
  = calculateHash_loop r (S i)
      ((if (i mod 2 =? 0) && (0 <? i) then result +:+ ":" else result)
       +:+ String c EmptyString).
Proof. reflexivity. Qed.

Lemma mod2_succ (i : nat) : i mod 2 = 0 → S i mod 2 = 1 ∧ S (S i) mod 2 = 0.
Proof.
  intros Hi.
  pose proof (Nat.div_mod_eq i 2).
  pose proof (Nat.div_mod_eq (S i) 2).
  pose proof (Nat.div_mod_eq (S (S i)) 2).
  pose proof (Nat.mod_upper_bound (S i) 2).
  pose proof (Nat.mod_upper_bound (S (S i)) 2).
  lia.
Qed.

(** The upper-cased hex text of a byte is two bytes long. *)
Lemma ToUpper_of_byte (b : byte) :
  ∃ c1 c2, Strings.ToUpper (Hex.of_byte b) = String c1 (String c2 EmptyString).
Proof. unfold Hex.of_byte. simpl. eauto. Qed.

Lemma colon_hex_upper_cons (b : byte) (r : list byte) :
  colon_hex_upper (b :: r)
  = Strings.ToUpper (Hex.of_byte b)
    +:+ match r with
        | [] => EmptyString
        | _ => ":" +:+ colon_hex_upper r
        end.
Proof.
  unfold colon_hex_upper. destruct r as [|b' r]; simpl map.
  - simpl Strings.Join. by rewrite append_nil_r.
  - reflexivity.
Qed.

(** The loop writes a colon before every pair of hex digits but the
    first. *)
Lemma calculateHash_loop_spec (digest : list byte) (i : nat) (result : string) :
  i mod 2 = 0 →
  calculateHash_loop (Strings.ToUpper (Hex.EncodeToString digest)) i result
  = result
    +:+ match digest with
        | [] => EmptyString
        | _ => (if 0 <? i then ":" else EmptyString) +:+ colon_hex_upper digest
        end.
Proof.
  revert i result. induction digest as [|b r IH]; intros i result Hi.
  - simpl. by rewrite append_nil_r.
  - destruct (mod2_succ i Hi) as [Hi1 Hi2].
    rewrite colon_hex_upper_cons.
    change (Hex.EncodeToString (b :: r))
      with (Hex.of_byte b +:+ Hex.EncodeToString r).
    unfold Strings.ToUpper in *. rewrite map_ascii_append.
    destruct (ToUpper_of_byte b) as (c1 & c2 & Hb).
    unfold Strings.ToUpper in Hb. rewrite Hb.
    change (String c1 (String c2 EmptyString) +:+ ?x)
      with (String c1 (String c2 x)).
    rewrite !calculateHash_loop_cons, Hi, Hi1.
    rewrite IH by done.
    change (0 <? S (S i)) with true. cbn [Nat.eqb andb].
    destruct (0 <? i); destruct r; simpl;
      rewrite ?append_assoc, ?append_nil_r; simpl; try done.
Qed.

Lemma calculateHash_spec (data : list byte) (certHasher : Hash) :
  calculateHash data certHasher = colon_hex_upper (Sum certHasher data).
Proof.
  unfold calculateHash, Fmt.x02_bytes.
  rewrite calculateHash_loop_spec by done.
  by destruct (Sum certHasher data).
Qed.

End HashFacts.

Example calculateHash_bytes :
  colon_hex_upper [x1a; x2b; x3c] = "1A:2B:3C"
  ∧ calculateHash [x1a; x2b; x3c] (Sample.hash 3 ltac:(lia)) = "1A:2B:3C".
Proof. split; reflexivity. Qed.

(** A refresh that succeeds: the key column is decoded from base64 and
    written in lowercase hex, and the header row is skipped. *)
Example addNewlyAvailableLogs_success :
  let header := "CA Owner" :: replicate 17 EmptyString ++ ["Subject Key Identifier"] in
  let row := "Example CA" :: replicate 17 EmptyString ++ ["Gis8"] in
  let get := fun attempt : nat =>
    if (attempt <? 3)%nat then GetError else Response 200 [Some header; Some row] in
  ∃ CAOwners,
    addNewlyAvailableLogs_CAOwners (H := Sample.library) get None = Ret (Some CAOwners)
    ∧ CAOwners !! "1a2b3c" = Some "Example CA"
    ∧ CAOwners !! "CA Owner" = None.
Proof. eexists. split; [reflexivity|]. split; vm_compute; reflexivity. Qed.

(** The owner of a leaf before and after a refresh that failed. *)
Example CAOwner_after_failed_refresh :
  ∃ before after,
    leafCertFromX509cert (H := Sample.library)
      (Some {["1a2b3c" := "Example CA"]}) Sample.leaf = Ret before
    ∧ leafCertFromX509cert (H := Sample.library) None Sample.leaf = Ret after
    ∧ certstream.CAOwner before = "Example CA"
    ∧ certstream.CAOwner after = "unknown".
Proof.
  do 2 eexists. split; [vm_compute; reflexivity|].
  split; [vm_compute; reflexivity|]. split; reflexivity.
Qed.

(** ** The leaf-cert record *)

Section LeafFacts.

Context `{Library}.

Lemma buildSubject_CN (name : pkix.Name) :
  certstream.CN (buildSubject name) = Some (pkix.CommonName name).
Proof. reflexivity. Qed.

Lemma buildSubject_Aggregated (name : pkix.Name) :
  certstream.Aggregated (buildSubject name) = Some (Marshal (ParseNameJSON name)).
Proof. reflexivity. Qed.

Lemma buildSubject_O (name : pkix.Name) :
  certstream.O (buildSubject name) = parseName (pkix.Organization name).
Proof. reflexivity. Qed.

Lemma parseKeyType_total (cert : x509.Certificate) :
  key_type_agrees cert = true →
  ∃ KeyType,
    parseKeyType (x509.PublicKeyAlgorithm cert) (x509.RawSubjectPublicKeyInfo cert)
    = Ret KeyType.
Proof.
  unfold key_type_agrees, parseKeyType.
  destruct (ParsePKIXPublicKey _) as [key|].
  - destruct (x509.PublicKeyAlgorithm cert) as [|[[|[]|]|[|[]|]|]|]; destruct key;
      intros Hkey; try done; eauto.
  - destruct (x509.PublicKeyAlgorithm cert) as [|[[|[]|]|[|[]|]|]|]; eauto.
Qed.

Lemma domain_step_registrable (CN : string) (wildcardCount : Z)
    (regDomainSlice : list string) (domainAlreadyAdded : bool) (domain : string) :
  ∃ wildcardCount',
    domain_step CN (wildcardCount, regDomainSlice, domainAlreadyAdded) domain
    = (wildcardCount', regDomainSlice ++ [registrable domain],
       domainAlreadyAdded || bool_decide (domain = CN)).
Proof.
  unfold domain_step, registrable. eexists. f_equal; [f_equal|].
  - by destruct (ParseIP domain), (EffectiveTLDPlusOne domain).
  - destruct (String.eqb_spec domain CN); case_bool_decide; try done;
      by destruct domainAlreadyAdded.
Qed.

(** The loop over the domains: one registrable domain for each, and
    whether the common name is among them. *)
Lemma domain_loop (CN : string) (domains : list string) (wildcardCount : Z)
    (regDomainSlice : list string) (domainAlreadyAdded : bool) :
  ∃ wildcardCount',
    fold_left (domain_step CN) domains
      (wildcardCount, regDomainSlice, domainAlreadyAdded)
    = (wildcardCount', regDomainSlice ++ map registrable domains,
       domainAlreadyAdded || bool_decide (CN ∈ domains)).
Proof.
  revert wildcardCount regDomainSlice domainAlreadyAdded.
  induction domains as [|domain domains IH]; intros wc regs added.
  - exists wc. simpl. by rewrite app_nil_r, orb_false_r.
  - cbn [fold_left].
    destruct (domain_step_registrable CN wc regs added domain) as [wc' ->].
    destruct (IH wc' (regs ++ [registrable domain])
                (added || bool_decide (domain = CN))) as [wc'' ->].
    exists wc''. f_equal; [f_equal|].
    + by rewrite <- app_assoc.
    + rewrite <- orb_assoc. f_equal.
      apply eq_true_iff_eq. rewrite orb_true_iff, !bool_decide_eq_true.
      rewrite elem_of_cons.
      split; (intros [->|?]; [by left|by right]).
Qed.

End LeafFacts.

Lemma unseen_insert (seen : gmap string bool) (x v : string) :
  unseen (<[x := true]> seen) v ↔ unseen seen v ∧ v ≠ x.
Proof.
  unfold unseen. destruct (decide (x = v)) as [->|Hne].
  - rewrite lookup_insert_eq. simpl. split; [done|by intros [_ ?]].
  - rewrite lookup_insert_ne by done.
    split; [intros ?; split; [done|congruence]|by intros [? _]].
Qed.

(** The loop that removes the duplicates appends the entries of
    [dedup_first] that were not seen before it. *)
Lemma dedup_loop (regDomainSlice : list string) (seenRegDomain : gmap string bool)
    (regDomainResult : slice string) :
  snd (fold_left dedup_step regDomainSlice (seenRegDomain, regDomainResult))
  = match filter (unseen seenRegDomain) (dedup_first regDomainSlice) with
    | [] => regDomainResult
    | added => Some (elems regDomainResult ++ added)
    end.
Proof.
  revert seenRegDomain regDomainResult.
  induction regDomainSlice as [|x r IH]; intros seen res; [done|].
  cbn [fold_left dedup_step dedup_first].
  destruct (default false (seen !! x)) eqn:Hx; cbn [negb].
  - rewrite IH. rewrite filter_cons_False by (unfold unseen; congruence).
    rewrite list_filter_filter.
    rewrite (list_filter_iff (λ v, unseen seen v ∧ v ≠ x) (unseen seen)); [done|].
    intros v. split; [by intros [Hv _]|]. intros Hv. split; [done|].
    intros ->. unfold unseen in Hv. congruence.
  - rewrite IH. rewrite filter_cons_True by done.
    rewrite list_filter_filter.
    rewrite (list_filter_iff (unseen (<[x:=true]> seen))
               (λ v, unseen seen v ∧ v ≠ x)) by apply unseen_insert.
    unfold append. cbn [elems default].
    destruct (filter _ (dedup_first r)); [done|].
    unfold id. by rewrite <- app_assoc.
Qed.

Lemma filter_all {A} (P : A → Prop) `{∀ x, Decision (P x)} (l : list A) :
  Forall P l → filter P l = l.
Proof.
  induction 1 as [|x l Hx _ IH]; [done|].
  by rewrite filter_cons_True, IH.
Qed.

Lemma dedup_loop_empty (regDomainSlice : list string) :
  elems (snd (fold_left dedup_step regDomainSlice (∅, None)))
  = dedup_first regDomainSlice.
Proof.
  rewrite dedup_loop.
  rewrite filter_all; [by destruct (dedup_first regDomainSlice)|].
  apply Forall_forall. intros v _. unfold unseen. by rewrite lookup_empty.
Qed.

Section LeafCert.

Context `{Library}.

(** The fields of the record that the properties below are about, for a
    certificate on which the type assertion of [parseKeyType] holds. *)
Lemma leafCertFromX509cert_fields (CAOwners : option (gmap string string))
    (cert : x509.Certificate) :
  key_type_agrees cert = true →
  let CN := pkix.CommonName (x509.Subject cert) in
  let SANs := elems (x509.DNSNames cert) in
  let guard := negb (String.eqb CN EmptyString) && negb (x509.IsCA cert) in
  ∃ l,
    leafCertFromX509cert CAOwners cert = Ret l
    ∧ certstream.Subject l = buildSubject (x509.Subject cert)
    ∧ certstream.IsCA l = x509.IsCA cert
    ∧ elems (certstream.AllDomains l)
      = SANs ++ (if guard && negb (bool_decide (CN ∈ SANs)) then [CN] else [])
    ∧ elems (certstream.AllRegDomains l)
      = (if guard then dedup_first (map registrable SANs) else [])
    ∧ certstream.ValidationType l
      = validationType (Fmt.d_oids (x509.PolicyIdentifiers cert))
          (parseName (pkix.Organization (x509.Subject cert)))
          (Marshal (ParseNameJSON (x509.Subject cert)))
    ∧ certstream.Fingerprint l = calculateSHA1 (x509.Raw cert)
    ∧ certstream.SHA1 l = calculateSHA1 (x509.Raw cert)
    ∧ certstream.SHA256 l = calculateSHA256 (x509.Raw cert).
Proof.
  intros Hkey CN SANs guard.
  destruct (parseKeyType_total cert Hkey) as [KeyType HKeyType].
  unfold leafCertFromX509cert. rewrite HKeyType.
  cbn [mbind Go_bind]. rewrite buildSubject_CN, buildSubject_Aggregated.
  unfold formatKeyIDShort. cbn [deref mbind Go_bind mret Go_ret].
  fold CN.
  assert (elems (match x509.DNSNames cert with
                 | Some l => Some l
                 | None => Some []
                 end) = SANs) as HSANs
    by (subst SANs; by destruct (x509.DNSNames cert)).
  rewrite HSANs. fold guard.
  destruct (domain_loop CN SANs 0 [] false) as [wildcardCount Hloop].
  pose proof (dedup_loop_empty (map registrable SANs)) as Hdedup.
  destruct guard.
  - rewrite Hloop. cbn [orb app].
    destruct (fold_left dedup_step (map registrable SANs) (∅, None))
      as [seenRegDomain regDomainResult] eqn:Hd.
    destruct (bool_decide (CN ∈ SANs)); cbn [negb andb]; rewrite Hd;
      (eexists; split; [reflexivity|]);
      cbn [certstream.Subject certstream.IsCA certstream.AllDomains
           certstream.AllRegDomains certstream.ValidationType
           certstream.Fingerprint certstream.SHA1 certstream.SHA256];
      repeat split; try done.
    + by rewrite HSANs, app_nil_r.
    + unfold append. cbn [elems default]. fold (elems (x509.DNSNames cert)).
      by rewrite HSANs.
  - cbn [fold_left andb].
    eexists; split; [reflexivity|].
    cbn [certstream.Subject certstream.IsCA certstream.AllDomains
         certstream.AllRegDomains certstream.ValidationType
         certstream.Fingerprint certstream.SHA1 certstream.SHA256].
    repeat split; try done.
    by rewrite HSANs, app_nil_r.
Qed.

(** C10: [buildSubject] returns a subject whose [CN] and [Aggregated] are
    not nil, for every name; the dereferences in [leafCertFromX509cert]
    do not fault and the function returns a record for every parsed
    certificate. *)
Theorem leafCertFromX509cert_total :
  (∀ name : pkix.Name,
     certstream.CN (buildSubject name) ≠ None
     ∧ certstream.Aggregated (buildSubject name) ≠ None)
  ∧ (∀ (CAOwners : option (gmap string string)) (cert : x509.Certificate),
       key_type_agrees cert = true →
       ∃ l, leafCertFromX509cert CAOwners cert = Ret l).
Proof.
  split.
  - intros name. by rewrite buildSubject_CN, buildSubject_Aggregated.
  - intros CAOwners cert Hkey.
    destruct (leafCertFromX509cert_fields CAOwners cert Hkey) as (l & Hl & _).
    eauto.
Qed.

(** C4 (amended): for every parsed certificate whose subject has a common
    name and that is not a CA, all_reg_domains is the sequence obtained
    from the DNS SANs of the certificate (all_domains without a common
    name appended to it) by mapping each entry to its registrable domain
    when resolvable, keeping the raw value otherwise, passing IP literals
    through unchanged, and then removing duplicates preserving first
    occurrence; it is not empty whenever the DNS SANs are not. *)
Theorem AllRegDomains_of_SANs (CAOwners : option (gmap string string))
    (cert : x509.Certificate) :
  key_type_agrees cert = true →
  pkix.CommonName (x509.Subject cert) ≠ EmptyString →
  x509.IsCA cert = false →
  ∃ l,
    leafCertFromX509cert CAOwners cert = Ret l
    ∧ elems (certstream.AllRegDomains l)
      = dedup_first (map registrable (elems (x509.DNSNames cert)))
    ∧ (elems (x509.DNSNames cert) ≠ [] → elems (certstream.AllRegDomains l) ≠ []).
Proof.
  intros Hkey HCN HCA.
  destruct (leafCertFromX509cert_fields CAOwners cert Hkey)
    as (l & Hl & _ & _ & _ & Hreg & _).
  cbv zeta in Hreg. rewrite HCA in Hreg.
  destruct (String.eqb_spec (pkix.CommonName (x509.Subject cert)) EmptyString)
    as [?|_]; [done|].
  cbn [negb andb] in Hreg.
  exists l. split; [done|]. split; [done|].
  rewrite Hreg. by destruct (elems (x509.DNSNames cert)).
Qed.

(** C5 (amended): for every parsed certificate, all_domains is the list
    of the DNS SANs as the certificate has them, an entry twice when the
    certificate has it twice, with the subject CN appended at the end if
    and only if there is a CN (it is not empty), the CN is not already
    present among them and the certificate is not a CA. *)
Theorem AllDomains_SANs_then_CN (CAOwners : option (gmap string string))
    (cert : x509.Certificate) :
  key_type_agrees cert = true →
  ∃ l,
    leafCertFromX509cert CAOwners cert = Ret l
    ∧ elems (certstream.AllDomains l)
      = elems (x509.DNSNames cert)
        ++ (if negb (String.eqb (pkix.CommonName (x509.Subject cert)) EmptyString)
               && negb (x509.IsCA cert)
               && negb (bool_decide (pkix.CommonName (x509.Subject cert)
                                     ∈ elems (x509.DNSNames cert)))
            then [pkix.CommonName (x509.Subject cert)]
            else []).
Proof.
  intros Hkey.
  destruct (leafCertFromX509cert_fields CAOwners cert Hkey)
    as (l & Hl & _ & _ & Hall & _).
  by exists l.
Qed.

End LeafCert.

Lemma leafCertFromX509cert_total_witness :
  key_type_agrees (H := Sample.library) Sample.leaf = true
  ∧ ∃ l, leafCertFromX509cert (H := Sample.library) None Sample.leaf = Ret l.
Proof.
  split; [reflexivity|].
  apply (proj2 (leafCertFromX509cert_total (H := Sample.library)) None Sample.leaf).
  reflexivity.
Defined.

Example leaf_AllRegDomains :
  ∃ l, leafCertFromX509cert (H := Sample.library) None Sample.leaf = Ret l
       ∧ certstream.AllDomains l = Some ["www.example.com"; "example.com"]
       ∧ certstream.AllRegDomains l = Some ["example.com"]
       ∧ certstream.KeyType l = "ECDSA256"
       ∧ certstream.CertType l = "Single".
Proof. eexists. split; [vm_compute; reflexivity|]. repeat split. Qed.

(** C4, as stated, fails: a common name that is no SAN is appended to
    all_domains and has no entry in all_reg_domains, and a certificate
    without a common name has no all_reg_domains at all. *)
Lemma AllRegDomains_not_of_AllDomains :
  (∃ l,
     leafCertFromX509cert (H := Sample.library) None
       (Sample.certificate (Sample.subject "example.com" None []) None false [])
     = Ret l
     ∧ elems (certstream.AllDomains l) = ["example.com"]
     ∧ elems (certstream.AllRegDomains l) = []
     ∧ dedup_first (map (registrable (H := Sample.library))
                      (elems (certstream.AllDomains l))) = ["example.com"])
  ∧ (∃ l,
       leafCertFromX509cert (H := Sample.library) None
         (Sample.certificate (Sample.subject EmptyString None [])
            (Some ["www.example.com"]) false [])
       = Ret l
       ∧ elems (certstream.AllDomains l) = ["www.example.com"]
       ∧ elems (certstream.AllRegDomains l) = []).
Proof.
  split; eexists; (split; [vm_compute; reflexivity|]); repeat split.
Qed.

Lemma AllRegDomains_of_SANs_witness :
  ∃ l,
    leafCertFromX509cert (H := Sample.library) None Sample.leaf = Ret l
    ∧ elems (certstream.AllRegDomains l)
      = dedup_first (map (registrable (H := Sample.library))
                       (elems (x509.DNSNames Sample.leaf)))
    ∧ (elems (x509.DNSNames Sample.leaf) ≠ [] → elems (certstream.AllRegDomains l) ≠ []).
Proof.
  apply (AllRegDomains_of_SANs (H := Sample.library) None Sample.leaf).
  - reflexivity.
  - vm_compute. discriminate.
  - reflexivity.
Defined.

(** C5, as stated, fails: a DNS SAN that the certificate has twice is in
    all_domains twice. *)
Lemma AllDomains_keeps_duplicates :
  ∃ l,
    leafCertFromX509cert (H := Sample.library) None
      (Sample.certificate (Sample.subject "a.example.com" None [])
         (Some ["a.example.com"; "a.example.com"]) false [])
    = Ret l
    ∧ elems (certstream.AllDomains l) = ["a.example.com"; "a.example.com"]
    ∧ ¬ NoDup (elems (certstream.AllDomains l)).
Proof.
  eexists. split; [vm_compute; reflexivity|]. split; [reflexivity|].
  cbn [certstream.AllDomains elems default].
  intros [Hnotin _]%NoDup_cons. apply Hnotin. left.
Qed.

Lemma AllDomains_SANs_then_CN_witness :
  ∃ l,
    leafCertFromX509cert (H := Sample.library) None
      (Sample.certificate (Sample.subject "example.com" None [])
         (Some ["www.example.com"]) false [])
    = Ret l
    ∧ elems (certstream.AllDomains l) = ["www.example.com"; "example.com"].
Proof.
  apply (AllDomains_SANs_then_CN (H := Sample.library) None
           (Sample.certificate (Sample.subject "example.com" None [])
              (Some ["www.example.com"]) false [])).
  reflexivity.
Defined.

(** ** The fingerprints of a precertificate and the clock *)

Section EntryFacts.

Context `{Library}.

Lemma parseData_precert (now : Z) (CAOwners : option (gmap string string))
    (entry : ct.RawLogEntry) (operatorName logName ctURL : string)
    (logEntry : ct.LogEntry) (precert : ct.Precertificate) (data : certstream.DataT) :
  ToLogEntry entry = Some logEntry →
  ct.X509Cert logEntry = None →
  ct.Precert logEntry = Some precert →
  parseData now CAOwners entry operatorName logName ctURL = Ret (Some data) →
  certstream.Fingerprint (certstream.LeafCert data) = calculateSHA1 (ct.Submitted precert)
  ∧ certstream.SHA1 (certstream.LeafCert data) = calculateSHA1 (ct.Submitted precert)
  ∧ certstream.SHA256 (certstream.LeafCert data) = calculateSHA256 (ct.Submitted precert).
Proof.
  intros HlogEntry HX509 HPrecert. unfold parseData.
  rewrite HlogEntry, HX509, HPrecert.
  destruct (leafCertFromX509cert CAOwners (ct.TBSCertificate precert)) as [leaf|];
    cbn [mbind Go_bind]; [|done].
  destruct (parseCertificateChain CAOwners (ct.Chain logEntry)) as [[chain|]|];
    cbn [mbind Go_bind mret Go_ret]; try done.
  by intros [= <-].
Qed.

(** C7: for every precertificate entry, the sha1 and sha256 fields of the
    emitted event are the colon-separated uppercase hex digests of SHA-1
    and of SHA-256 over the submitted DER bytes, and fingerprint equals
    sha1. *)
Theorem precert_hashes_over_submitted (now : Z)
    (CAOwners : option (gmap string string)) (w : worker)
    (rawEntry : ct.RawLogEntry) (logEntry : ct.LogEntry)
    (precert : ct.Precertificate) (entry : certstream.Entry) :
  ToLogEntry rawEntry = Some logEntry →
  ct.X509Cert logEntry = None →
  ct.Precert logEntry = Some precert →
  foundPrecertCallback now CAOwners w (Some rawEntry) = Ret (Some entry) →
  let leaf := certstream.LeafCert (certstream.Data entry) in
  certstream.SHA1 leaf = colon_hex_upper (Sum sha1_New (ct.Submitted precert))
  ∧ certstream.SHA256 leaf = colon_hex_upper (Sum sha256_New (ct.Submitted precert))
  ∧ certstream.Fingerprint leaf = certstream.SHA1 leaf.
Proof.
  intros HlogEntry HX509 HPrecert.
  unfold foundPrecertCallback, parseCertstreamEntry.
  destruct (parseData now CAOwners rawEntry (operatorName w) (name w) (ctURL w))
    as [[data|]|] eqn:Hdata; cbn [mbind Go_bind mret Go_ret fmap option_fmap option_map];
    try done.
  intros [= <-].
  destruct (parseData_precert _ _ _ _ _ _ _ _ _ HlogEntry HX509 HPrecert Hdata)
    as (HF & H1 & H256).
  cbn [set_UpdateType set_Data_UpdateType certstream.Data certstream.LeafCert].
  rewrite HF, H1, H256. unfold calculateSHA1, calculateSHA256.
  by rewrite !calculateHash_spec.
Qed.

(** C8 (amended): for every raw log entry, fixed operator, log-name and
    URL arguments and a fixed CA-owner catalog, two invocations of
    [parseCertstreamEntry] produce entries that are identical in every
    field except seen, which holds the clock reading of each invocation;
    the entries are identical when the clock reads the same. *)
Theorem parseCertstreamEntry_deterministic_but_seen (now1 now2 : Z)
    (CAOwners : option (gmap string string)) (rawEntry : option ct.RawLogEntry)
    (operatorName logname ctURL : string) :
  parseCertstreamEntry now2 CAOwners rawEntry operatorName logname ctURL
  = with_Seen now2
      (parseCertstreamEntry now1 CAOwners rawEntry operatorName logname ctURL).
Proof.
  unfold parseCertstreamEntry, parseData.
  destruct rawEntry as [rawEntry|]; [|done].
  destruct (ToLogEntry rawEntry) as [logEntry|]; [|done].
  destruct (ct.X509Cert logEntry) as [cert|], (ct.Precert logEntry) as [precert|];
    try done.
  all: destruct (leafCertFromX509cert CAOwners _) as [leaf|];
    cbn [mbind Go_bind]; [|done].
  all: destruct (parseCertificateChain CAOwners (ct.Chain logEntry)) as [[chain|]|];
    done.
Qed.

End EntryFacts.

Lemma precert_hashes_over_submitted_witness :
  ∃ entry,
    foundPrecertCallback (H := Sample.library) 1000 None Sample.aWorker
      (Some Sample.precertEntry) = Ret (Some entry)
    ∧ certstream.SHA1 (certstream.LeafCert (certstream.Data entry))
      = colon_hex_upper (Sum (sha1_New (Library := Sample.library))
                           (ct.Cert Sample.precertEntry))
    ∧ certstream.SHA256 (certstream.LeafCert (certstream.Data entry))
      = colon_hex_upper (Sum (sha256_New (Library := Sample.library))
                           (ct.Cert Sample.precertEntry))
    ∧ certstream.Fingerprint (certstream.LeafCert (certstream.Data entry))
      = certstream.SHA1 (certstream.LeafCert (certstream.Data entry)).
Proof.
  eexists. split; [vm_compute; reflexivity|].
  apply (precert_hashes_over_submitted (H := Sample.library) 1000 None
           Sample.aWorker Sample.precertEntry
           {| ct.X509Cert := None;
              ct.Precert := Some {| ct.Submitted := ct.Cert Sample.precertEntry;
                                    ct.TBSCertificate := Sample.leaf |};
              ct.Chain := ct.RawChain Sample.precertEntry |}
           {| ct.Submitted := ct.Cert Sample.precertEntry;
              ct.TBSCertificate := Sample.leaf |}).
  - reflexivity.
  - reflexivity.
  - reflexivity.
  - vm_compute. reflexivity.
Defined.

Example precert_UpdateType :
  ∃ entry,
    foundPrecertCallback (H := Sample.library) 1000 None Sample.aWorker
      (Some Sample.precertEntry) = Ret (Some entry)
    ∧ certstream.UpdateType (certstream.Data entry) = "PrecertLogEntry"
    ∧ certstream.SHA1 (certstream.LeafCert (certstream.Data entry))
      = "30:03:02:01:02:00:00:00:00:00:00:00:00:00:00:00:00:00:00:00".
Proof. eexists. split; [vm_compute; reflexivity|]. split; reflexivity. Qed.

(** C8, as stated, fails: seen is read from the clock, and two invocations
    on the same entry at different times differ in it. *)
Lemma parseCertstreamEntry_not_deterministic :
  ∃ entry1 entry2,
    parseCertstreamEntry (H := Sample.library) 1000 None
      (Some Sample.precertEntry) "Example" "Example Log" "https://ct.example.com/log"
    = Ret (Some entry1)
    ∧ parseCertstreamEntry (H := Sample.library) 2000 None
        (Some Sample.precertEntry) "Example" "Example Log" "https://ct.example.com/log"
      = Ret (Some entry2)
    ∧ entry1 ≠ entry2.
Proof.
  do 2 eexists. split; [vm_compute; reflexivity|]. split; [vm_compute; reflexivity|].
  intros Heq.
  apply (f_equal (λ e, certstream.Seen (certstream.Data e))) in Heq.
  discriminate Heq.
Qed.

(** ** The validation type *)

Section PolicyFacts.

Lemma mem_ascii_append (c : ascii) (a b : string) :
  Strings.mem_ascii c (a +:+ b) = Strings.mem_ascii c a || Strings.mem_ascii c b.
Proof.
  induction a as [|d a IH]; simpl; [done|]. by rewrite IH, orb_assoc.
Qed.

(** A byte of a substring is a byte of the string. *)
Lemma Contains_mem_ascii (c : ascii) (s sub : string) :
  Strings.Contains s sub = true →
  Strings.mem_ascii c sub = true →
  Strings.mem_ascii c s = true.
Proof.
  intros Hsub Hc. induction s as [|d s IH].
  - change (Strings.HasPrefix EmptyString sub || false = true) in Hsub.
    rewrite orb_false_r in Hsub. apply HasPrefix_iff in Hsub as [t Ht].
    by rewrite Ht, mem_ascii_append, Hc.
  - change (Strings.HasPrefix (String d s) sub || Strings.Contains s sub = true)
      in Hsub.
    apply orb_prop in Hsub as [Hpre|Hrest].
    + apply HasPrefix_iff in Hpre as [t ->].
      by rewrite mem_ascii_append, Hc.
    + simpl. rewrite (IH Hrest). apply orb_true_r.
Qed.

Lemma mem_ascii_Join (c : ascii) (l : list string) (sep : string) :
  Strings.mem_ascii c sep = false →
  Forall (λ x, Strings.mem_ascii c x = false) l →
  Strings.mem_ascii c (Strings.Join l sep) = false.
Proof.
  intros Hsep. induction 1 as [|x l Hx Hl IH]; [done|].
  destruct l as [|y l]; [done|].
  change (Strings.Join (x :: y :: l) sep)
    with (x +:+ sep +:+ Strings.Join (y :: l) sep).
  by rewrite !mem_ascii_append, Hx, Hsep, IH.
Qed.

Lemma mem_ascii_uint (d : Decimal.uint) :
  Strings.mem_ascii "." (DecimalString.NilEmpty.string_of_uint d) = false.
Proof. induction d; simpl; done. Qed.

Lemma mem_ascii_Itoa (n : Z) : Strings.mem_ascii "." (Strconv.Itoa n) = false.
Proof.
  unfold Strconv.Itoa.
  destruct (Z.to_int n) as [d|d]; simpl.
  - destruct d; try done; apply (mem_ascii_uint (_ d)).
  - destruct d; try done; apply (mem_ascii_uint (_ d)).
Qed.

(** The text that the verb [%d] prints for the policy identifiers has no
    dot in it. *)
Lemma mem_ascii_d_oids (v : list OID) : Strings.mem_ascii "." (Fmt.d_oids v) = false.
Proof.
  unfold Fmt.d_oids. rewrite !mem_ascii_append, mem_ascii_Join; [done..|].
  apply Forall_map, Forall_forall. intros oid _.
  unfold Fmt.d_ints. rewrite !mem_ascii_append, mem_ascii_Join; [done..|].
  apply Forall_map, Forall_forall. intros n _. apply mem_ascii_Itoa.
Qed.

Lemma d_oids_Contains (v : list OID) (oid : string) :
  Strings.mem_ascii "." oid = true →
  Strings.Contains (Fmt.d_oids v) oid = false.
Proof.
  intros Hdot. destruct (Strings.Contains (Fmt.d_oids v) oid) eqn:Hsub; [|done].
  pose proof (Contains_mem_ascii "." _ _ Hsub Hdot) as Hmem.
  by rewrite mem_ascii_d_oids in Hmem.
Qed.

(** No policy identifier changes the validation type: it is EV with the
    marker in the aggregated subject, else DV without an organization,
    else OV. *)
Lemma validationType_ignores_policies (v : list OID) (subjectO : option string)
    (aggregated : string) :
  validationType (Fmt.d_oids v) subjectO aggregated
  = if Strings.Contains aggregated "1.3.6.1.4.1.311.60.2.1.3" then "EV"
    else match subjectO with
         | None => "DV"
         | Some _ => "OV"
         end.
Proof.
  unfold validationType.
  rewrite !d_oids_Contains by reflexivity. by destruct subjectO.
Qed.

End PolicyFacts.

(** C2 fails on the code: the policy identifiers are printed with the verb
    [%d], as [[2 23 140 1 2 3]], and no dotted identifier is found in that
    text; a certificate with the policy 2.23.140.1.2.3, an organization
    and no jurisdiction marker gets OV, not IV. *)
Theorem policy_IV_yields_OV :
  let cert :=
    Sample.certificate (Sample.subject "Jane Doe" (Some ["Doe Consulting"]) [])
      (Some ["doe.example.com"]) false [[2; 23; 140; 1; 2; 3]] in
  [2; 23; 140; 1; 2; 3] ∈ x509.PolicyIdentifiers cert
  ∧ Fmt.d_oids (x509.PolicyIdentifiers cert) = "[[2 23 140 1 2 3]]"
  ∧ ∃ l aggregated,
      leafCertFromX509cert (H := Sample.library) None cert = Ret l
      ∧ certstream.O (certstream.Subject l) = Some "Doe Consulting"
      ∧ certstream.Aggregated (certstream.Subject l) = Some aggregated
      ∧ Strings.Contains aggregated "1.3.6.1.4.1.311.60.2.1.3" = false
      ∧ certstream.ValidationType l = "OV".
Proof.
  split; [apply list_elem_of_here|]. split; [reflexivity|].
  do 2 eexists. split; [vm_compute; reflexivity|]. repeat split.
Qed.

(** The policies of DV and of EV are not found either. *)
Example policy_DV_EV_yield_OV :
  ∀ policy, policy ∈ [[2; 23; 140; 1; 2; 1]; [2; 23; 140; 1; 1]] →
    ∃ l,
      leafCertFromX509cert (H := Sample.library) None
        (Sample.certificate (Sample.subject "example.com" (Some ["Example Ltd"]) [])
           (Some ["example.com"]) false [policy]) = Ret l
      ∧ certstream.ValidationType l = "OV".
Proof.
  intros policy [->|[->|[]%elem_of_nil]%elem_of_cons]%elem_of_cons;
    (eexists; split; [vm_compute; reflexivity|reflexivity]).
Qed.

(** C3 fails on the code: [ParseNameJSON] keeps the values of the
    attributes and drops their types, so the aggregated subject of a
    certificate with a jurisdictionCountry attribute does not contain the
    OID and the validation type is not EV. *)
Theorem jurisdictionCountry_not_EV :
  let subject :=
    Sample.subject "Example Bank" (Some ["Example Bank AG"])
      [{| pkix.Type_ := [1; 3; 6; 1; 4; 1; 311; 60; 2; 1; 3]; pkix.Value := "DE" |}] in
  let cert := Sample.certificate subject (Some ["bank.example.com"]) false [] in
  (∃ atv, atv ∈ pkix.Names subject
          ∧ pkix.Type_ atv = [1; 3; 6; 1; 4; 1; 311; 60; 2; 1; 3])
  ∧ Names (ParseNameJSON subject) = ["Example Bank AG"; "Example Bank"; "DE"]
  ∧ ∃ l aggregated,
      leafCertFromX509cert (H := Sample.library) None cert = Ret l
      ∧ certstream.Aggregated (certstream.Subject l) = Some aggregated
      ∧ Strings.Contains aggregated "1.3.6.1.4.1.311.60.2.1.3" = false
      ∧ certstream.ValidationType l = "OV".
Proof.
  split.
  { exists {| pkix.Type_ := [1; 3; 6; 1; 4; 1; 311; 60; 2; 1; 3]; pkix.Value := "DE" |}.
    split; [|reflexivity]. vm_compute. do 2 apply list_elem_of_further.
    apply list_elem_of_here. }
  split; [reflexivity|].
  do 2 eexists. split; [vm_compute; reflexivity|]. repeat split.
Qed.

(** * Further properties *)

(** ** Hex text *)

Section HexFacts.

Local Open Scope nat_scope.

Lemma length_map_ascii (f : ascii → ascii) (s : string) :
  String.length (Strings.map_ascii f s) = String.length s.
Proof. induction s as [|c s IH]; simpl; [done|by rewrite IH]. Qed.

Lemma length_EncodeToString (src : list byte) :
  String.length (Hex.EncodeToString src) = 2 * length src.
Proof.
  induction src as [|b r IH]; [done|].
  change (Hex.EncodeToString (b :: r)) with (Hex.of_byte b +:+ Hex.EncodeToString r).
  rewrite length_append, IH. simpl. lia.
Qed.

Lemma length_colon_hex_upper (digest : list byte) :
  digest ≠ [] → String.length (colon_hex_upper digest) = 3 * length digest - 1.
Proof.
  induction digest as [|b r IH]; [done|]. intros _.
  rewrite colon_hex_upper_cons, length_append.
  destruct (ToUpper_of_byte b) as (c1 & c2 & ->).
  destruct r as [|b' r]; [done|].
  rewrite length_append, IH by done. simpl. lia.
Qed.

(** A hex digit is one of [0-9a-f]. *)
Lemma digit_cases (n : N) :
  Strings.mem_ascii (Hex.digit n) "0123456789abcdef" = true.
Proof.
  unfold Hex.digit. generalize (N.to_nat n). intros k.
  do 16 (destruct k as [|k]; [reflexivity|]). reflexivity.
Qed.

Lemma digit_lower (n : N) : Strings.lower_ascii (Hex.digit n) = Hex.digit n.
Proof.
  unfold Hex.digit. generalize (N.to_nat n). intros k.
  do 16 (destruct k as [|k]; [reflexivity|]). reflexivity.
Qed.

Lemma digit_not_colon (n : N) : Strings.mem_ascii (Hex.digit n) ":" = false.
Proof.
  unfold Hex.digit. generalize (N.to_nat n). intros k.
  do 16 (destruct k as [|k]; [reflexivity|]). reflexivity.
Qed.

(** Lower-casing the output of [hex.EncodeToString] changes nothing. *)
Lemma ToLower_EncodeToString (src : list byte) :
  Strings.ToLower (Hex.EncodeToString src) = Hex.EncodeToString src.
Proof.
  unfold Strings.ToLower. induction src as [|b r IH]; [done|].
  change (Hex.EncodeToString (b :: r)) with (Hex.of_byte b +:+ Hex.EncodeToString r).
  rewrite map_ascii_append, IH. f_equal.
  unfold Hex.of_byte. simpl. by rewrite !digit_lower.
Qed.

Lemma formatKeyID_loop_spec (keyID : list byte) (digest : string) :
  formatKeyID_loop (Hex.EncodeToString keyID) digest
  = digest +:+ foldr (fun b acc => ":" +:+ Hex.of_byte b +:+ acc) EmptyString keyID.
Proof.
  revert digest. induction keyID as [|b r IH]; intros digest.
  - simpl. by rewrite append_nil_r.
  - change (Hex.EncodeToString (b :: r)) with (Hex.of_byte b +:+ Hex.EncodeToString r).
    unfold Hex.of_byte at 1.
    change (String ?c1 (String ?c2 EmptyString) +:+ ?x) with (String c1 (String c2 x)).
    cbn [formatKeyID_loop foldr]. rewrite IH.
    by rewrite !append_assoc.
Qed.

Lemma Join_foldr {A} (f : A → string) (sep x : string) (r : list A) :
  Strings.Join (x :: map f r) sep
  = x +:+ foldr (fun b acc => sep +:+ f b +:+ acc) EmptyString r.
Proof.
  revert x. induction r as [|y r IH]; intros x.
  - simpl. by rewrite append_nil_r.
  - cbn [map foldr].
    change (Strings.Join (x :: f y :: map f r) sep)
      with (x +:+ sep +:+ Strings.Join (f y :: map f r) sep).
    by rewrite IH.
Qed.

End HexFacts.

(** [formatKeyID] writes the key identifier as "keyid:" and its bytes in
    lowercase hex pairs with colons between them; an empty identifier
    gives "keyid:". *)
Theorem formatKeyID_colon_hex (keyID : list byte) :
  formatKeyID keyID = Some ("keyid:" +:+ Strings.Join (map Hex.of_byte keyID) ":").
Proof.
  unfold formatKeyID. do 2 f_equal.
  rewrite formatKeyID_loop_spec. change (EmptyString +:+ ?x) with x.
  destruct keyID as [|b r]; [done|].
  cbn [map foldr]. rewrite Join_foldr.
  unfold Hex.of_byte at 1 3.
  change (":" +:+ String ?c1 ?x +:+ ?y) with (String ":" (String c1 (x +:+ y))).
  cbn [Strings.TrimLeft]. change (Strings.mem_ascii ":" ":") with true. cbn iota.
  cbn [Strings.TrimLeft]. by rewrite digit_not_colon.
Qed.

(** The fingerprint of a digest of [n] bytes is [3 * n - 1] bytes long: 59
    for SHA-1 and 95 for SHA-256. *)
Theorem calculateHash_length (data : list byte) (certHasher : Hash) :
  String.length (calculateHash data certHasher) = (3 * Size certHasher - 1)%nat.
Proof.
  rewrite calculateHash_spec.
  pose proof (Size_pos certHasher) as Hpos.
  pose proof (Sum_length certHasher data) as Hlen.
  rewrite length_colon_hex_upper, Hlen; [done|].
  intros Hnil. rewrite Hnil in Hlen. simpl in Hlen. lia.
Qed.

(** ** Comma-separated lists *)

Lemma length_zero_iff (s : string) : (0 <? String.length s)%nat = false ↔ s = EmptyString.
Proof. destruct s; simpl; split; done. Qed.

Lemma Join_cons_cons (x y : string) (r : list string) (sep : string) :
  Strings.Join (x :: y :: r) sep = x +:+ sep +:+ Strings.Join (y :: r) sep.
Proof. reflexivity. Qed.

(** A loop that writes the separator before every entry but the first
    joins the entries, when none of them is empty. *)
Lemma join_loop_nonempty (sep : string) (items : list string) (buf : string) :
  buf ≠ EmptyString →
  Forall (λ x, x ≠ EmptyString) items →
  fold_left
    (λ buf s, (if (0 <? String.length buf)%nat then buf +:+ sep else buf) +:+ s)
    items buf
  = Strings.Join (buf :: items) sep.
Proof.
  intros Hbuf Hitems. revert buf Hbuf.
  induction Hitems as [|x items Hx _ IH]; intros buf Hbuf; [done|].
  cbn [fold_left].
  destruct (0 <? String.length buf)%nat eqn:Hlen;
    [|by apply length_zero_iff in Hlen].
  rewrite IH.
  - rewrite Join_cons_cons.
    destruct items as [|y items]; [by rewrite append_assoc|].
    by rewrite !Join_cons_cons, !append_assoc.
  - destruct buf; [done|]. done.
Qed.

Lemma join_loop (sep : string) (items : list string) :
  Forall (λ x, x ≠ EmptyString) items →
  fold_left
    (λ buf s, (if (0 <? String.length buf)%nat then buf +:+ sep else buf) +:+ s)
    items EmptyString
  = Strings.Join items sep.
Proof.
  intros Hitems. destruct Hitems as [|x items Hx Hitems]; [done|].
  cbn [fold_left]. change (EmptyString +:+ x) with x.
  by apply join_loop_nonempty.
Qed.

Lemma commaAppend_fold (items : list string) :
  Forall (λ x, x ≠ EmptyString) items →
  fold_left commaAppend items EmptyString = Strings.Join items ", ".
Proof. apply (join_loop ", "). Qed.

Lemma fold_left_map_arg {A B C} (f : A → C → A) (g : B → C) (l : list B) (a : A) :
  fold_left (λ a x, f a (g x)) l a = fold_left f (map g l) a.
Proof. revert a. induction l as [|x l IH]; intros a; [done|]. simpl. apply IH. Qed.

(** A loop that handles the entries that pass a test handles the entries
    of the filtered list. *)
Lemma fold_left_filter_map {A B C} (P : B → Prop) `{∀ x, Decision (P x)}
    (test : B → bool) (f : A → C → A) (g : B → C) (l : list B) (a : A) :
  (∀ x, test x = bool_decide (P x)) →
  fold_left (λ a x, if test x then f a (g x) else a) l a
  = fold_left f (map g (filter P l)) a.
Proof.
  intros Htest. revert a. induction l as [|x l IH]; intros a; [done|].
  cbn [fold_left]. rewrite filter_cons, Htest. case_bool_decide.
  - rewrite decide_True by done. cbn [map fold_left]. apply IH.
  - rewrite decide_False by done. apply IH.
Qed.

Lemma keyUsageNames_nonempty : Forall (λ p : Z * string, snd p ≠ EmptyString) keyUsageNames.
Proof. unfold keyUsageNames. repeat constructor; done. Qed.

(** [keyUsageToString] names the key usages that are set, in the order of
    the flags, separated by a comma and a space; bits that are no key usage
    are ignored, and no usage gives the empty text. *)
Theorem keyUsageToString_names (k : Z) :
  keyUsageToString k
  = Strings.Join
      (map snd (filter (λ p, Z.land k (fst p) ≠ 0) keyUsageNames)) ", ".
Proof.
  rewrite <- commaAppend_fold.
  - change (keyUsageToString k)
      with (fold_left
              (λ buf p, if negb (Z.land k (fst p) =? 0)
                        then commaAppend buf (snd p) else buf)
              keyUsageNames EmptyString).
    apply (fold_left_filter_map (λ p, Z.land k (fst p) ≠ 0)).
    intros [flag name]. cbn [fst].
    destruct (Z.eqb_spec (Z.land k flag) 0); cbn [negb]; symmetry.
    + by apply bool_decide_eq_false_2; intros Hn.
    + by apply bool_decide_eq_true_2.
  - apply Forall_map, Forall_forall. intros p [_ Hin]%list_elem_of_filter.
    pose proof keyUsageNames_nonempty as Hall.
    rewrite Forall_forall in Hall. by apply Hall.
Qed.

(** [formatSerialNumber] returns a text of even length, whatever the serial
    number. *)
Theorem formatSerialNumber_even (serialNumber : option Z) :
  (String.length (formatSerialNumber serialNumber) mod 2 = 0)%nat.
Proof.
  unfold formatSerialNumber.
  set (sn := Fmt.X_bigint serialNumber).
  destruct (Nat.eqb_spec (String.length sn mod 2) 1) as [Hodd|Heven].
  - change (String.length ("0" +:+ sn)) with (S (String.length sn)).
    pose proof (Nat.div_mod_eq (String.length sn) 2).
    pose proof (Nat.div_mod_eq (S (String.length sn)) 2).
    pose proof (Nat.mod_upper_bound (S (String.length sn)) 2).
    lia.
  - pose proof (Nat.mod_upper_bound (String.length sn) 2). lia.
Qed.

(** [parseName] keeps a nil slice nil, and joins the values of a slice
    without empty values with commas. *)
Theorem parseName_Join (input : list string) :
  Forall (λ x, x ≠ EmptyString) input →
  parseName None = None
  ∧ parseName (Some input) = Some (Strings.Join input ",").
Proof.
  intros Hinput. split; [done|]. unfold parseName. f_equal.
  by apply join_loop.
Qed.

Lemma parseName_Join_witness :
  parseName None = None
  ∧ parseName (Some ["Example Ltd"; "Example Holding"])
    = Some (Strings.Join ["Example Ltd"; "Example Holding"] ",").
Proof.
  apply (parseName_Join ["Example Ltd"; "Example Holding"]).
  repeat constructor; discriminate.
Defined.

(** An empty value at the front of the slice gets no comma after it. *)
Example parseName_empty_front :
  parseName (Some [EmptyString; "Example Ltd"]) = Some "Example Ltd".
Proof. reflexivity. Qed.

(** ** More fields of the leaf-cert record *)

Lemma NoDup_dedup_first (l : list string) : NoDup (dedup_first l).
Proof.
  induction l as [|x l IH]; cbn [dedup_first]; [constructor|].
  apply NoDup_cons. split.
  - intros [Hne _]%list_elem_of_filter. done.
  - by apply NoDup_filter.
Qed.

Lemma elem_of_dedup_first (l : list string) (v : string) : v ∈ dedup_first l ↔ v ∈ l.
Proof.
  induction l as [|x l IH]; cbn [dedup_first]; [done|].
  rewrite !elem_of_cons, list_elem_of_filter, IH. split.
  - intros [->|[_ Hv]]; [by left|by right].
  - intros [->|Hv]; [by left|].
    destruct (decide (v = x)) as [->|Hne]; [by left|by right].
Qed.

Section MoreLeafFacts.

Context `{Library}.

Lemma parseKeyType_agrees (cert : x509.Certificate) (KeyType : string) :
  parseKeyType (x509.PublicKeyAlgorithm cert) (x509.RawSubjectPublicKeyInfo cert)
  = Ret KeyType →
  key_type_agrees cert = true.
Proof.
  unfold key_type_agrees, parseKeyType.
  destruct (ParsePKIXPublicKey _) as [key|]; [|done].
  destruct (x509.PublicKeyAlgorithm cert) as [|[[|[]|]|[|[]|]|]|]; destruct key; done.
Qed.

(** A certificate for which [leafCertFromX509cert] returns passed the type
    assertion of [parseKeyType]. *)
Lemma leafCertFromX509cert_agrees (CAOwners : option (gmap string string))
    (cert : x509.Certificate) (l : certstream.LeafCertT) :
  leafCertFromX509cert CAOwners cert = Ret l → key_type_agrees cert = true.
Proof.
  unfold leafCertFromX509cert.
  destruct (parseKeyType _ _) as [KeyType|] eqn:HKeyType; [|done].
  intros _. by eapply parseKeyType_agrees.
Qed.

Lemma wildcardSANs_cons (domain : string) (domains : list string) :
  wildcardSANs (domain :: domains)
  = (if Strings.Contains domain "*" then 1 else 0) + wildcardSANs domains.
Proof.
  unfold wildcardSANs. rewrite filter_cons.
  destruct (Strings.Contains domain "*").
  - rewrite decide_True by done. cbn [length]. lia.
  - rewrite decide_False by done. lia.
Qed.

Lemma domain_loop_wildcards (CN : string) (domains : list string) (wildcardCount : Z)
    (regDomainSlice : list string) (domainAlreadyAdded : bool) :
  fst (fst (fold_left (domain_step CN) domains
              (wildcardCount, regDomainSlice, domainAlreadyAdded)))
  = wildcardCount + wildcardSANs domains.
Proof.
  revert wildcardCount regDomainSlice domainAlreadyAdded.
  induction domains as [|domain domains IH]; intros wc regs added.
  - cbn. unfold wildcardSANs. cbn. lia.
  - cbn [fold_left]. unfold domain_step at 2.
    rewrite IH, wildcardSANs_cons.
    destruct (Strings.Contains domain "*"); lia.
Qed.

(** The loop over the domains, with the count of the wildcards. *)
Lemma domain_loop_count (CN : string) (domains : list string) (wildcardCount : Z)
    (regDomainSlice : list string) (domainAlreadyAdded : bool) :
  fold_left (domain_step CN) domains
    (wildcardCount, regDomainSlice, domainAlreadyAdded)
  = (wildcardCount + wildcardSANs domains,
     regDomainSlice ++ map registrable domains,
     domainAlreadyAdded || bool_decide (CN ∈ domains)).
Proof.
  pose proof (domain_loop_wildcards CN domains wildcardCount regDomainSlice
                domainAlreadyAdded) as Hfst.
  destruct (domain_loop CN domains wildcardCount regDomainSlice domainAlreadyAdded)
    as [wc Hwc].
  rewrite Hwc in Hfst |- *. cbn [fst] in Hfst. by rewrite Hfst.
Qed.

(** The remaining fields of the record, for a certificate on which the
    type assertion of [parseKeyType] holds. *)
Lemma leafCertFromX509cert_more (CAOwners : option (gmap string string))
    (cert : x509.Certificate) :
  key_type_agrees cert = true →
  let CN := pkix.CommonName (x509.Subject cert) in
  let SANs := elems (x509.DNSNames cert) in
  let guard := negb (String.eqb CN EmptyString) && negb (x509.IsCA cert) in
  let wildcardCount := if guard then wildcardSANs SANs else 0 in
  ∃ l,
    leafCertFromX509cert CAOwners cert = Ret l
    ∧ certstream.CAOwner l
      = match CAOwners ≫= (λ m, m !! Hex.EncodeToString (x509.AuthorityKeyId cert)) with
        | Some owner => owner
        | None => "unknown"
        end
    ∧ certstream.Extensions l
      = fold_left (extension_step cert) (x509.Extensions cert) Extensions_zero
    ∧ certstream.AsDER l = EncodeToString (x509.Raw cert)
    ∧ certstream.CertTypeExt l
      = {| certstream.SANCount := len (certstream.AllDomains l);
           certstream.WildcardSANCount := wildcardCount;
           certstream.SingleSANCount := len (certstream.AllDomains l) - wildcardCount |}
    ∧ certstream.CertType l
      = (if 0 <? wildcardCount then "Wildcard"
         else if 2 <? len (certstream.AllDomains l) then "Multi" else "Single").
Proof.
  intros Hkey CN SANs guard wildcardCount.
  destruct (parseKeyType_total cert Hkey) as [KeyType HKeyType].
  unfold leafCertFromX509cert. rewrite HKeyType.
  cbn [mbind Go_bind]. rewrite buildSubject_CN, buildSubject_Aggregated.
  unfold formatKeyIDShort. cbn [deref mbind Go_bind mret Go_ret].
  rewrite ToLower_EncodeToString.
  fold CN.
  assert (elems (match x509.DNSNames cert with
                 | Some l => Some l
                 | None => Some []
                 end) = SANs) as HSANs
    by (subst SANs; by destruct (x509.DNSNames cert)).
  rewrite HSANs. fold guard. subst wildcardCount.
  destruct guard.
  - rewrite domain_loop_count. cbn [orb app]. rewrite Z.add_0_l.
    destruct (fold_left dedup_step (map registrable SANs) (∅, None))
      as [seenRegDomain regDomainResult] eqn:Hd.
    destruct (bool_decide (CN ∈ SANs)); cbn [negb]; rewrite Hd;
      (eexists; split; [reflexivity|]); repeat split.
  - cbn [fold_left]. eexists; split; [reflexivity|]. repeat split.
Qed.

End MoreLeafFacts.

(** ** The extensions *)

Lemma sanEntries_nonempty (cert : x509.Certificate) :
  Forall (λ x, x ≠ EmptyString) (sanEntries cert).
Proof.
  unfold sanEntries. rewrite !Forall_app. repeat split;
    apply Forall_map, Forall_forall; intros x _; done.
Qed.

(** The buffer that the case of the subject alternative name fills. *)
Lemma sanEntries_buffer (cert : x509.Certificate) :
  fold_left (λ buf ip, commaAppend buf ("IP Address:" +:+ ip)) (x509.IPAddresses cert)
    (fold_left (λ buf email, commaAppend buf ("email:" +:+ email))
       (x509.EmailAddresses cert)
       (fold_left (λ buf name, commaAppend buf ("DNS:" +:+ name))
          (elems (x509.DNSNames cert)) EmptyString))
  = Strings.Join (sanEntries cert) ", ".
Proof.
  rewrite <- commaAppend_fold by apply sanEntries_nonempty.
  unfold sanEntries. rewrite !fold_left_app.
  rewrite (fold_left_map_arg commaAppend (λ name, "DNS:" +:+ name)).
  rewrite (fold_left_map_arg commaAppend (λ email, "email:" +:+ email)).
  by rewrite (fold_left_map_arg commaAppend (λ ip, "IP Address:" +:+ ip)).
Qed.

Lemma bool_decide_elem_of_cons {A} `{EqDecision A} (x y : A) (l : list A) :
  bool_decide (x ∈ y :: l) = bool_decide (x = y) || bool_decide (x ∈ l).
Proof.
  apply eq_true_iff_eq.
  by rewrite orb_true_iff, !bool_decide_eq_true, elem_of_cons.
Qed.

(** Decides the tests of [extension_step] on an extension whose
    identifier is known. *)
Ltac oid_tests :=
  unfold OID_Equal, x509.OIDExtensionAuthorityKeyId, x509.OIDExtensionKeyUsage,
    x509.OIDExtensionSubjectKeyId, x509.OIDExtensionBasicConstraints,
    x509.OIDExtensionSubjectAltName, x509.OIDExtensionAuthorityInfoAccess,
    x509.OIDExtensionCTPoison;
  repeat match goal with
  | |- context [bool_decide (?a = ?a)] =>
      rewrite (bool_decide_eq_true_2 (a = a)) by done
  | |- context [bool_decide (?a = ?b)] =>
      rewrite (bool_decide_eq_false_2 (a = b)) by (intros [=])
  end.

Lemma extension_step_SubjectAltName (cert : x509.Certificate)
    (ext : certstream.ExtensionsT) :
  certstream.SubjectAltName
    (extension_step cert ext {| x509.Id := x509.OIDExtensionSubjectAltName |})
  = Some (Strings.Join (sanEntries cert) ", ").
Proof.
  unfold extension_step. cbn [x509.Id]. oid_tests.
  cbn [set_SubjectAltName certstream.SubjectAltName].
  by rewrite sanEntries_buffer.
Qed.

Lemma extension_step_CTLPoisonByte (cert : x509.Certificate)
    (ext : certstream.ExtensionsT) :
  certstream.CTLPoisonByte
    (extension_step cert ext {| x509.Id := x509.OIDExtensionCTPoison |})
  = true.
Proof. unfold extension_step. cbn [x509.Id]. oid_tests. reflexivity. Qed.

(** The loop over the extensions fills the subject alternative name when
    its extension is among them, and only then. *)
Lemma extension_loop_SubjectAltName (cert : x509.Certificate)
    (extensions : list x509.Extension) (ext : certstream.ExtensionsT) :
  certstream.SubjectAltName (fold_left (extension_step cert) extensions ext)
  = if bool_decide (x509.OIDExtensionSubjectAltName ∈ map x509.Id extensions)
    then Some (Strings.Join (sanEntries cert) ", ")
    else certstream.SubjectAltName ext.
Proof.
  revert ext. induction extensions as [|extension extensions IH]; intros ext; [done|].
  cbn [fold_left map]. rewrite IH, bool_decide_elem_of_cons.
  destruct (bool_decide (_ ∈ map x509.Id extensions)); [by rewrite orb_true_r|].
  rewrite orb_false_r.
  destruct (decide (x509.Id extension = x509.OIDExtensionSubjectAltName)) as [Hid|Hid].
  - rewrite bool_decide_eq_true_2 by done.
    destruct extension as [id]. cbn [x509.Id] in Hid. subst id.
    apply extension_step_SubjectAltName.
  - rewrite bool_decide_eq_false_2 by done.
    unfold extension_step, OID_Equal.
    rewrite (bool_decide_eq_false_2 (x509.Id extension = x509.OIDExtensionSubjectAltName))
      by done.
    repeat case_bool_decide; reflexivity.
Qed.

(** The loop sets the poison marker when the poison extension is among the
    extensions, and never clears it. *)
Lemma extension_loop_CTLPoisonByte (cert : x509.Certificate)
    (extensions : list x509.Extension) (ext : certstream.ExtensionsT) :
  certstream.CTLPoisonByte (fold_left (extension_step cert) extensions ext)
  = bool_decide (x509.OIDExtensionCTPoison ∈ map x509.Id extensions)
    || certstream.CTLPoisonByte ext.
Proof.
  revert ext. induction extensions as [|extension extensions IH]; intros ext; [done|].
  cbn [fold_left map]. rewrite IH, bool_decide_elem_of_cons.
  destruct (bool_decide (_ ∈ map x509.Id extensions)); [by rewrite orb_true_r|].
  rewrite orb_false_r. cbn [orb].
  destruct (decide (x509.Id extension = x509.OIDExtensionCTPoison)) as [Hid|Hid].
  - rewrite bool_decide_eq_true_2 by done.
    destruct extension as [id]. cbn [x509.Id] in Hid. subst id.
    apply extension_step_CTLPoisonByte.
  - rewrite bool_decide_eq_false_2 by done.
    unfold extension_step, OID_Equal.
    rewrite (bool_decide_eq_false_2 (x509.Id extension = x509.OIDExtensionCTPoison))
      by done.
    repeat case_bool_decide; reflexivity.
Qed.

Section LeafProperties.

Context `{Library}.

(** The CA owner of a certificate is the entry of the catalog under the
    lowercase hex text, without separators, of the authority key
    identifier, and "unknown" when there is no such entry or the catalog
    is nil. *)
Theorem CAOwner_lookup (CAOwners : option (gmap string string))
    (cert : x509.Certificate) :
  key_type_agrees cert = true →
  ∃ l,
    leafCertFromX509cert CAOwners cert = Ret l
    ∧ certstream.CAOwner l
      = match CAOwners with
        | Some catalog =>
            default "unknown" (catalog !! Hex.EncodeToString (x509.AuthorityKeyId cert))
        | None => "unknown"
        end.
Proof.
  intros Hkey.
  destruct (leafCertFromX509cert_more CAOwners cert Hkey) as (l & Hl & Howner & _).
  exists l. split; [done|]. rewrite Howner.
  destruct CAOwners as [catalog|]; [|done]. cbn.
  by destruct (catalog !! _).
Qed.

(** The subject alternative name of the record is the list of the DNS
    names, the email addresses and the IP addresses, in that order, each
    with its label, separated by a comma and a space, when the certificate
    has the extension; it is nil when it has not, whatever names the
    certificate holds. The poison marker is set exactly when the poison
    extension is present. *)
Theorem Extensions_SubjectAltName (CAOwners : option (gmap string string))
    (cert : x509.Certificate) :
  key_type_agrees cert = true →
  ∃ l,
    leafCertFromX509cert CAOwners cert = Ret l
    ∧ certstream.SubjectAltName (certstream.Extensions l)
      = (if bool_decide (x509.OIDExtensionSubjectAltName
                         ∈ map x509.Id (x509.Extensions cert))
         then Some (Strings.Join (sanEntries cert) ", ")
         else None)
    ∧ certstream.CTLPoisonByte (certstream.Extensions l)
      = bool_decide (x509.OIDExtensionCTPoison ∈ map x509.Id (x509.Extensions cert)).
Proof.
  intros Hkey.
  destruct (leafCertFromX509cert_more CAOwners cert Hkey) as (l & Hl & _ & Hext & _).
  exists l. split; [done|]. rewrite Hext.
  rewrite extension_loop_SubjectAltName, extension_loop_CTLPoisonByte.
  by rewrite orb_false_r.
Qed.

(** The counts of the record: san_count is the length of all_domains, the
    single and the wildcard count add up to it, and the wildcard count is
    the number of DNS SANs with a "*" when the subject has a common name
    and the certificate is not a CA, and 0 otherwise. The type is
    "Wildcard" exactly when that count is positive. *)
Theorem CertTypeExt_counts (CAOwners : option (gmap string string))
    (cert : x509.Certificate) :
  key_type_agrees cert = true →
  ∃ l,
    leafCertFromX509cert CAOwners cert = Ret l
    ∧ certstream.SANCount (certstream.CertTypeExt l)
      = Z.of_nat (length (elems (certstream.AllDomains l)))
    ∧ certstream.SingleSANCount (certstream.CertTypeExt l)
      + certstream.WildcardSANCount (certstream.CertTypeExt l)
      = certstream.SANCount (certstream.CertTypeExt l)
    ∧ certstream.WildcardSANCount (certstream.CertTypeExt l)
      = (if negb (String.eqb (pkix.CommonName (x509.Subject cert)) EmptyString)
            && negb (x509.IsCA cert)
         then wildcardSANs (elems (x509.DNSNames cert))
         else 0)
    ∧ (certstream.CertType l = "Wildcard"
       ↔ 0 < certstream.WildcardSANCount (certstream.CertTypeExt l)).
Proof.
  intros Hkey.
  destruct (leafCertFromX509cert_more CAOwners cert Hkey)
    as (l & Hl & _ & _ & _ & Hcounts & Htype).
  cbv zeta in Hcounts, Htype.
  exists l. split; [done|]. rewrite Hcounts, Htype.
  cbn [certstream.SANCount certstream.SingleSANCount certstream.WildcardSANCount].
  repeat split; try done; try lia.
  - destruct (0 <? _) eqn:Hpos; [by apply Z.ltb_lt in Hpos|].
    by destruct (2 <? _).
  - intros Hpos%Z.ltb_lt. by rewrite Hpos.
Qed.

(** all_reg_domains has no entry twice, and each of its entries is the
    registrable domain of a DNS SAN of the certificate. *)
Theorem AllRegDomains_NoDup (CAOwners : option (gmap string string))
    (cert : x509.Certificate) :
  key_type_agrees cert = true →
  ∃ l,
    leafCertFromX509cert CAOwners cert = Ret l
    ∧ NoDup (elems (certstream.AllRegDomains l))
    ∧ ∀ regDomain, regDomain ∈ elems (certstream.AllRegDomains l) →
        ∃ domain, domain ∈ elems (x509.DNSNames cert) ∧ regDomain = registrable domain.
Proof.
  intros Hkey.
  destruct (leafCertFromX509cert_fields CAOwners cert Hkey)
    as (l & Hl & _ & _ & _ & Hreg & _).
  cbv zeta in Hreg. exists l. split; [done|]. rewrite Hreg.
  destruct (_ && _).
  - split; [apply NoDup_dedup_first|].
    intros regDomain Hin. apply (proj1 (elem_of_dedup_first _ _)) in Hin.
    apply list_elem_of_In, in_map_iff in Hin as (domain & <- & Hin).
    exists domain. split; [by apply list_elem_of_In|done].
  - split; [constructor|]. by intros regDomain Hin%elem_of_nil.
Qed.

(** A certificate whose subject has no organization and no jurisdiction
    marker in the aggregated subject is DV, whatever its policy
    identifiers. *)
Theorem ValidationType_DV_without_organization
    (CAOwners : option (gmap string string)) (cert : x509.Certificate) :
  key_type_agrees cert = true →
  pkix.Organization (x509.Subject cert) = None →
  Strings.Contains (Marshal (ParseNameJSON (x509.Subject cert)))
    "1.3.6.1.4.1.311.60.2.1.3" = false →
  ∃ l,
    leafCertFromX509cert CAOwners cert = Ret l
    ∧ certstream.ValidationType l = "DV".
Proof.
  intros Hkey HO Hmarker.
  destruct (leafCertFromX509cert_fields CAOwners cert Hkey)
    as (l & Hl & _ & _ & _ & _ & Hvalidation & _).
  exists l. split; [done|].
  by rewrite Hvalidation, validationType_ignores_policies, Hmarker, HO.
Qed.

End LeafProperties.

Lemma CAOwner_lookup_witness :
  ∃ l,
    leafCertFromX509cert (H := Sample.library)
      (Some {["1a2b3c" := "Example CA"]}) Sample.leaf = Ret l
    ∧ certstream.CAOwner l
      = default "unknown"
          (({["1a2b3c" := "Example CA"]} : gmap string string)
             !! Hex.EncodeToString (x509.AuthorityKeyId Sample.leaf)).
Proof.
  apply (CAOwner_lookup (H := Sample.library)
           (Some {["1a2b3c" := "Example CA"]}) Sample.leaf).
  reflexivity.
Defined.

Lemma Extensions_SubjectAltName_witness :
  ∃ l,
    leafCertFromX509cert (H := Sample.library) None Sample.leaf = Ret l
    ∧ certstream.SubjectAltName (certstream.Extensions l)
      = Some "DNS:www.example.com, DNS:example.com"
    ∧ certstream.CTLPoisonByte (certstream.Extensions l) = false.
Proof.
  apply (Extensions_SubjectAltName (H := Sample.library) None Sample.leaf).
  reflexivity.
Defined.

Lemma CertTypeExt_counts_witness :
  ∃ l,
    leafCertFromX509cert (H := Sample.library) None
      (Sample.certificate (Sample.subject "example.com" None [])
         (Some ["*.example.com"; "example.com"]) false []) = Ret l
    ∧ certstream.SANCount (certstream.CertTypeExt l)
      = Z.of_nat (length (elems (certstream.AllDomains l)))
    ∧ certstream.SingleSANCount (certstream.CertTypeExt l)
      + certstream.WildcardSANCount (certstream.CertTypeExt l)
      = certstream.SANCount (certstream.CertTypeExt l)
    ∧ certstream.WildcardSANCount (certstream.CertTypeExt l) = 1
    ∧ (certstream.CertType l = "Wildcard"
       ↔ 0 < certstream.WildcardSANCount (certstream.CertTypeExt l)).
Proof.
  apply (CertTypeExt_counts (H := Sample.library) None
           (Sample.certificate (Sample.subject "example.com" None [])
              (Some ["*.example.com"; "example.com"]) false [])).
  reflexivity.
Defined.

(** A wildcard SAN is not counted when the subject has no common name. *)
Example wildcard_without_CN :
  ∃ l,
    leafCertFromX509cert (H := Sample.library) None
      (Sample.certificate (Sample.subject EmptyString None [])
         (Some ["*.example.com"]) false []) = Ret l
    ∧ certstream.WildcardSANCount (certstream.CertTypeExt l) = 0
    ∧ certstream.CertType l = "Single".
Proof. eexists. split; [vm_compute; reflexivity|]. split; reflexivity. Qed.

Lemma AllRegDomains_NoDup_witness :
  ∃ l,
    leafCertFromX509cert (H := Sample.library) None Sample.leaf = Ret l
    ∧ NoDup (elems (certstream.AllRegDomains l))
    ∧ ∀ regDomain, regDomain ∈ elems (certstream.AllRegDomains l) →
        ∃ domain, domain ∈ elems (x509.DNSNames Sample.leaf)
                  ∧ regDomain = registrable (H := Sample.library) domain.
Proof.
  apply (AllRegDomains_NoDup (H := Sample.library) None Sample.leaf).
  reflexivity.
Defined.

Lemma ValidationType_DV_without_organization_witness :
  ∃ l,
    leafCertFromX509cert (H := Sample.library) None Sample.leaf = Ret l
    ∧ certstream.ValidationType l = "DV".
Proof.
  apply (ValidationType_DV_without_organization (H := Sample.library) None Sample.leaf).
  - reflexivity.
  - reflexivity.
  - vm_compute. reflexivity.
Defined.

(** ** Entries *)

Section EntryProperties.

Context `{Library}.

Lemma parseCertificateChain_inv (CAOwners : option (gmap string string))
    (chain : list (list byte)) (leaves : list certstream.LeafCertT) :
  parseCertificateChain CAOwners chain = Ret (Some leaves) →
  Forall2 (λ chainEntry leaf,
             ∃ cert, ParseCertificate chainEntry = Some cert
                     ∧ leafCertFromX509cert CAOwners cert = Ret leaf)
    chain leaves.
Proof.
  revert leaves. induction chain as [|chainEntry chain IH]; intros leaves.
  - cbn. intros [= <-]. constructor.
  - cbn [parseCertificateChain].
    destruct (ParseCertificate chainEntry) as [cert|] eqn:Hcert; [|done].
    destruct (leafCertFromX509cert CAOwners cert) as [leaf|] eqn:Hleaf;
      cbn [mbind Go_bind]; [|done].
    destruct (parseCertificateChain CAOwners chain) as [[tail|]|];
      cbn [mbind Go_bind mret Go_ret fmap option_fmap option_map]; try done.
    intros [= <-]. constructor; [eauto|by apply IH].
Qed.

(** The chain of an event has one record for each certificate of the
    submitted chain, in the order of the chain, when each of them parses. *)
Theorem parseCertificateChain_order (CAOwners : option (gmap string string))
    (chain : list (list byte)) :
  Forall (λ chainEntry,
            ∃ cert, ParseCertificate chainEntry = Some cert
                    ∧ key_type_agrees cert = true) chain →
  ∃ leaves,
    parseCertificateChain CAOwners chain = Ret (Some leaves)
    ∧ Forall2 (λ chainEntry leaf,
                 ∃ cert, ParseCertificate chainEntry = Some cert
                         ∧ leafCertFromX509cert CAOwners cert = Ret leaf)
        chain leaves.
Proof.
  intros Hchain.
  assert (∃ leaves, parseCertificateChain CAOwners chain = Ret (Some leaves))
    as [leaves Hleaves].
  { induction Hchain as [|chainEntry chain (cert & Hcert & Hkey) _ [tail IH]].
    - by exists [].
    - destruct (leafCertFromX509cert_fields CAOwners cert Hkey) as (leaf & Hleaf & _).
      exists (leaf :: tail). cbn [parseCertificateChain].
      by rewrite Hcert, Hleaf; cbn [mbind Go_bind]; rewrite IH. }
  exists leaves. split; [done|]. by apply parseCertificateChain_inv.
Qed.

(** One certificate of the chain that does not parse makes
    [parseCertificateChain] return an error, whatever follows it. *)
Theorem parseCertificateChain_error (CAOwners : option (gmap string string))
    (before after : list (list byte)) (chainEntry : list byte) :
  Forall (λ chainEntry,
            ∃ cert, ParseCertificate chainEntry = Some cert
                    ∧ key_type_agrees cert = true) before →
  ParseCertificate chainEntry = None →
  parseCertificateChain CAOwners (before ++ chainEntry :: after) = Ret None.
Proof.
  intros Hbefore Hbad.
  induction Hbefore as [|first before (cert & Hcert & Hkey) _ IH].
  - cbn. by rewrite Hbad.
  - destruct (leafCertFromX509cert_fields CAOwners cert Hkey) as (leaf & Hleaf & _).
    cbn [app parseCertificateChain].
    by rewrite Hcert, Hleaf; cbn [mbind Go_bind]; rewrite IH.
Qed.

Lemma parseData_inv (now : Z) (CAOwners : option (gmap string string))
    (entry : ct.RawLogEntry) (operatorName logName ctURL : string)
    (data : certstream.DataT) :
  parseData now CAOwners entry operatorName logName ctURL = Ret (Some data) →
  ∃ logEntry cert rawData isPrecert leaf chain,
    ToLogEntry entry = Some logEntry
    ∧ match ct.X509Cert logEntry, ct.Precert logEntry with
      | Some X509Cert, _ => Some (X509Cert, x509.Raw X509Cert, false)
      | None, Some Precert =>
          Some (ct.TBSCertificate Precert, ct.Submitted Precert, true)
      | None, None => None
      end = Some (cert, rawData, isPrecert)
    ∧ leafCertFromX509cert CAOwners cert = Ret leaf
    ∧ parseCertificateChain CAOwners (ct.Chain logEntry) = Ret (Some chain)
    ∧ data
      = {| certstream.CertIndex := ct.Index entry;
           certstream.CertLink :=
             ctURL +:+ "/ct/v1/get-entries?start=" +:+ Strconv.Itoa (ct.Index entry)
                   +:+ "&end=" +:+ Strconv.Itoa (ct.Index entry);
           certstream.Seen := now;
           certstream.Source :=
             {| certstream.Name := logName;
                certstream.URL := ctURL;
                certstream.Operator := operatorName;
                certstream.NormalizedURL := normalizeCtlogURL ctURL |};
           certstream.UpdateType := "X509LogEntry";
           certstream.LeafCert :=
             set_AsDER
               (if isPrecert
                then set_hashes leaf (calculateSHA1 rawData) (calculateSHA1 rawData)
                       (calculateSHA256 rawData)
                else leaf)
               (EncodeToString (ct.Cert entry));
           certstream.Chain := chain |}.
Proof.
  unfold parseData.
  destruct (ToLogEntry entry) as [logEntry|]; [|done].
  destruct (match ct.X509Cert logEntry, ct.Precert logEntry with
            | Some X509Cert, _ => _
            | None, Some Precert => _
            | None, None => None
            end) as [[[cert rawData] isPrecert]|] eqn:Hselected; [|done].
  destruct (leafCertFromX509cert CAOwners cert) as [leaf|] eqn:Hleaf;
    cbn [mbind Go_bind]; [|done].
  destruct (parseCertificateChain CAOwners (ct.Chain logEntry)) as [[chain|]|] eqn:Hchain;
    cbn [mbind Go_bind mret Go_ret]; try done.
  intros [= <-]. by exists logEntry, cert, rawData, isPrecert, leaf, chain.
Qed.

(** An entry is emitted for a raw entry only when the conversion
    succeeds, the entry holds a certificate or a precertificate, and every
    certificate of its chain parses; the event then has the index of the
    entry, the link to it, the normalized URL of the log, the message type
    "certificate_update" and a chain as long as the submitted one. *)
Theorem parseCertstreamEntry_emits (now : Z) (CAOwners : option (gmap string string))
    (rawEntry : option ct.RawLogEntry) (operatorName logname ctURL : string)
    (entry : certstream.Entry) :
  parseCertstreamEntry now CAOwners rawEntry operatorName logname ctURL
  = Ret (Some entry) →
  ∃ raw logEntry,
    rawEntry = Some raw
    ∧ ToLogEntry raw = Some logEntry
    ∧ (ct.X509Cert logEntry ≠ None ∨ ct.Precert logEntry ≠ None)
    ∧ Forall (λ chainEntry, ParseCertificate chainEntry ≠ None) (ct.Chain logEntry)
    ∧ length (certstream.Chain (certstream.Data entry)) = length (ct.Chain logEntry)
    ∧ certstream.CertIndex (certstream.Data entry) = ct.Index raw
    ∧ certstream.CertLink (certstream.Data entry)
      = ctURL +:+ "/ct/v1/get-entries?start=" +:+ Strconv.Itoa (ct.Index raw)
              +:+ "&end=" +:+ Strconv.Itoa (ct.Index raw)
    ∧ certstream.NormalizedURL (certstream.Source (certstream.Data entry))
      = normalizeCtlogURL ctURL
    ∧ certstream.MessageType entry = "certificate_update".
Proof.
  unfold parseCertstreamEntry. destruct rawEntry as [raw|]; [|done].
  destruct (parseData now CAOwners raw operatorName logname ctURL)
    as [[data|]|] eqn:Hdata; cbn [mbind Go_bind mret Go_ret]; try done.
  intros [= <-].
  apply parseData_inv in Hdata
    as (logEntry & cert & rawData & isPrecert & leaf & chain
        & HlogEntry & Hselected & _ & Hchain & ->).
  apply parseCertificateChain_inv in Hchain.
  exists raw, logEntry. repeat split; try done.
  - destruct (ct.X509Cert logEntry), (ct.Precert logEntry); auto; done.
  - clear -Hchain. induction Hchain as [|? ? ? ? (cert & Hcert & _)]; constructor;
      [by rewrite Hcert|done].
  - cbn. symmetry. by eapply Forall2_length.
Qed.

(** For every X.509 entry, the sha1 and sha256 fields of the emitted
    event are the colon-separated uppercase hex digests over the raw DER
    of the certificate, fingerprint equals sha1, as_der is the base64 text
    of the bytes of the entry and the update type is "X509LogEntry". *)
Theorem x509_hashes_over_raw (now : Z) (CAOwners : option (gmap string string))
    (w : worker) (rawEntry : ct.RawLogEntry) (logEntry : ct.LogEntry)
    (cert : x509.Certificate) (entry : certstream.Entry) :
  ToLogEntry rawEntry = Some logEntry →
  ct.X509Cert logEntry = Some cert →
  foundCertCallback now CAOwners w (Some rawEntry) = Ret (Some entry) →
  let leaf := certstream.LeafCert (certstream.Data entry) in
  certstream.SHA1 leaf = colon_hex_upper (Sum sha1_New (x509.Raw cert))
  ∧ certstream.SHA256 leaf = colon_hex_upper (Sum sha256_New (x509.Raw cert))
  ∧ certstream.Fingerprint leaf = certstream.SHA1 leaf
  ∧ certstream.AsDER leaf = EncodeToString (ct.Cert rawEntry)
  ∧ certstream.UpdateType (certstream.Data entry) = "X509LogEntry".
Proof.
  intros HlogEntry HX509.
  unfold foundCertCallback, parseCertstreamEntry.
  destruct (parseData now CAOwners rawEntry (operatorName w) (name w) (ctURL w))
    as [[data|]|] eqn:Hdata; cbn [mbind Go_bind mret Go_ret fmap option_fmap option_map];
    try done.
  intros [= <-].
  apply parseData_inv in Hdata
    as (logEntry' & cert' & rawData & isPrecert & leaf & chain
        & HlogEntry' & Hselected & Hleaf & _ & ->).
  rewrite HlogEntry in HlogEntry'. injection HlogEntry' as <-.
  rewrite HX509 in Hselected. injection Hselected as <- <- <-.
  pose proof (leafCertFromX509cert_agrees _ _ _ Hleaf) as Hkey.
  destruct (leafCertFromX509cert_fields CAOwners cert Hkey)
    as (leaf' & Hleaf' & _ & _ & _ & _ & _ & HF & H1 & H256).
  rewrite Hleaf in Hleaf'. injection Hleaf' as <-.
  cbn. rewrite HF, H1, H256. unfold calculateSHA1, calculateSHA256.
  by rewrite !calculateHash_spec.
Qed.

End EntryProperties.

Lemma parseCertificateChain_order_witness :
  ∃ leaves,
    parseCertificateChain (H := Sample.library) None [[x30]; [x31]] = Ret (Some leaves)
    ∧ Forall2 (λ chainEntry leaf,
                 ∃ cert, ParseCertificate (Library := Sample.library) chainEntry = Some cert
                         ∧ leafCertFromX509cert (H := Sample.library) None cert = Ret leaf)
        [[x30]; [x31]] leaves.
Proof.
  apply (parseCertificateChain_order (H := Sample.library) None [[x30]; [x31]]).
  repeat constructor; exists Sample.leaf; split; reflexivity.
Defined.

Lemma parseCertstreamEntry_emits_witness :
  ∃ entry,
    parseCertstreamEntry (H := Sample.library) 1000 None (Some Sample.certEntry)
      "Example" "Example Log" "https://ct.example.com/log/" = Ret (Some entry)
    ∧ length (certstream.Chain (certstream.Data entry)) = 2%nat
    ∧ certstream.CertIndex (certstream.Data entry) = 8
    ∧ certstream.NormalizedURL (certstream.Source (certstream.Data entry))
      = "ct.example.com/log".
Proof.
  eexists. split; [vm_compute; reflexivity|].
  destruct (parseCertstreamEntry_emits (H := Sample.library) 1000 None
              (Some Sample.certEntry) "Example" "Example Log"
              "https://ct.example.com/log/" _ eq_refl)
    as (raw & logEntry & [= <-] & [= <-] & _ & _ & Hlen & Hindex & _ & Hurl & _).
  split; [exact Hlen|]. split; [exact Hindex|exact Hurl].
Defined.

Lemma x509_hashes_over_raw_witness :
  ∃ entry,
    foundCertCallback (H := Sample.library) 1000 None Sample.aWorker
      (Some Sample.certEntry) = Ret (Some entry)
    ∧ certstream.SHA1 (certstream.LeafCert (certstream.Data entry))
      = colon_hex_upper (Sum (sha1_New (Library := Sample.library))
                           (x509.Raw Sample.leaf))
    ∧ certstream.SHA256 (certstream.LeafCert (certstream.Data entry))
      = colon_hex_upper (Sum (sha256_New (Library := Sample.library))
                           (x509.Raw Sample.leaf))
    ∧ certstream.Fingerprint (certstream.LeafCert (certstream.Data entry))
      = certstream.SHA1 (certstream.LeafCert (certstream.Data entry))
    ∧ certstream.AsDER (certstream.LeafCert (certstream.Data entry))
      = EncodeToString (Library := Sample.library) (ct.Cert Sample.certEntry)
    ∧ certstream.UpdateType (certstream.Data entry) = "X509LogEntry".
Proof.
  eexists. split; [vm_compute; reflexivity|].
  apply (x509_hashes_over_raw (H := Sample.library) 1000 None
           Sample.aWorker Sample.certEntry
           {| ct.X509Cert := Some Sample.leaf; ct.Precert := None;
              ct.Chain := ct.RawChain Sample.certEntry |}
           Sample.leaf).
  - reflexivity.
  - reflexivity.
  - vm_compute. reflexivity.
Defined.

(** ** The download of the catalog *)

(** The download returns the body of the first of its three requests that
    is answered with status 200, and fails when none is; a fourth request
    is never made. *)
Theorem download_first_success (get : nat → http_result)
    (body : list (option (list string))) :
  download get 1 2 = Some body
  ↔ ∃ attempt : nat,
      (1 ≤ attempt ≤ 3)%nat
      ∧ get attempt = Response StatusOK body
      ∧ ∀ earlier b, (1 ≤ earlier < attempt)%nat → get earlier ≠ Response StatusOK b.
Proof.
  assert (∀ attempt, (∃ b, get attempt = Response StatusOK b)
                     ∨ ∀ b, get attempt ≠ Response StatusOK b) as Hcases.
  { intros attempt. destruct (get attempt) as [|code b]; [by right|].
    destruct (decide (code = StatusOK)) as [->|Hcode]; [left; eauto|].
    right. congruence. }
  assert (∀ attempt remaining,
            (∀ b, get attempt ≠ Response StatusOK b) →
            download get attempt (S remaining) = download get (S attempt) remaining)
    as Hnext.
  { intros attempt remaining Hfail. cbn [download].
    destruct (get attempt) as [|code b]; [done|].
    destruct (Z.eqb_spec code StatusOK) as [->|Hcode]; [|done].
    by destruct (Hfail b). }
  assert (∀ attempt remaining b,
            get attempt = Response StatusOK b →
            download get attempt remaining = Some b) as Hok.
  { intros attempt remaining b Hget. destruct remaining; cbn [download];
      by rewrite Hget. }
  assert (∀ attempt, (∀ b, get attempt ≠ Response StatusOK b) →
                     download get attempt 0 = None) as Hlast.
  { intros attempt Hfail. cbn [download].
    destruct (get attempt) as [|code b]; [done|].
    destruct (Z.eqb_spec code StatusOK) as [->|Hcode]; [|done].
    by destruct (Hfail b). }
  split.
  - intros Hdownload.
    destruct (Hcases 1%nat) as [[b1 H1]|H1].
    { rewrite (Hok _ _ _ H1) in Hdownload. injection Hdownload as ->.
      exists 1%nat. split; [lia|]. split; [done|]. intros; lia. }
    rewrite (Hnext _ _ H1) in Hdownload.
    destruct (Hcases 2%nat) as [[b2 H2]|H2].
    { rewrite (Hok _ _ _ H2) in Hdownload. injection Hdownload as ->.
      exists 2%nat. split; [lia|]. split; [done|].
      intros earlier b Hearlier. assert (earlier = 1%nat) as -> by lia. apply H1. }
    rewrite (Hnext _ _ H2) in Hdownload.
    destruct (Hcases 3%nat) as [[b3 H3]|H3].
    { rewrite (Hok _ _ _ H3) in Hdownload. injection Hdownload as ->.
      exists 3%nat. split; [lia|]. split; [done|].
      intros earlier b Hearlier.
      assert (earlier = 1%nat ∨ earlier = 2%nat) as [-> | ->] by lia; [apply H1|apply H2]. }
    by rewrite (Hlast _ H3) in Hdownload.
  - intros (attempt & Hrange & Hget & Hfirst).
    assert (attempt = 1 ∨ attempt = 2 ∨ attempt = 3)%nat as [->|[->| ->]] by lia.
    + by apply Hok.
    + rewrite Hnext by (intros b; apply Hfirst; lia). by apply Hok.
    + rewrite Hnext by (intros b; apply Hfirst; lia).
      rewrite Hnext by (intros b; apply Hfirst; lia). by apply Hok.
Qed.

Section CatalogProperties.

Context `{Library}.

Lemma index_lt {A} (l : list A) (i : nat) :
  (i < length l)%nat → ∃ a, index l i = Ret a ∧ nth_error l i = Some a.
Proof.
  intros Hi. unfold index.
  destruct (nth_error l i) as [a|] eqn:Ha; [eauto|].
  apply nth_error_None in Ha. lia.
Qed.

Lemma read_records_returns (records : list (option (list string)))
    (keyColIndex valueColIndex : Z) (n : nat) (result : gmap string string) :
  uniform n records →
  0 ≤ keyColIndex < Z.of_nat n →
  0 ≤ valueColIndex < Z.of_nat n →
  ∃ r, read_records records keyColIndex valueColIndex result = Ret r.
Proof.
  intros Huniform Hkey Hvalue. revert result.
  induction Huniform as [|record records Hrecord _ IH]; intros result; [by eexists|].
  destruct record as [fields|]; [|by eexists].
  specialize (Hrecord fields eq_refl). cbn [read_records].
  destruct (index_lt fields (Z.to_nat keyColIndex) ltac:(lia)) as (key & -> & _).
  destruct (index_lt fields (Z.to_nat valueColIndex) ltac:(lia)) as (value & -> & _).
  cbn [mbind Go_bind]. apply IH.
Qed.

(** On a body whose records have the number of fields of the first one,
    [DownloadAndParseCSV] does not panic, and it returns a nil map exactly
    when it returns an error. *)
Theorem DownloadAndParseCSV_returns (get : nat → http_result)
    (keyColIndex valueColIndex : Z) (skipHeader : bool) :
  (∀ body firstRow rest,
     download get 1 2 = Some body → body = Some firstRow :: rest →
     uniform (length firstRow) rest) →
  ∃ result err,
    DownloadAndParseCSV get keyColIndex valueColIndex skipHeader = Ret (result, err)
    ∧ (result = None ↔ err = true).
Proof.
  intros Huniform. unfold DownloadAndParseCSV. cbv zeta.
  change (3 - 1)%nat with 2%nat.
  destruct (download get 1 2) as [[|[firstRow|] rest]|] eqn:Hbody;
    try by (exists None, true).
  specialize (Huniform _ firstRow rest eq_refl eq_refl).
  destruct (Z.ltb_spec keyColIndex 0); cbn [orb]; [by exists None, true|].
  destruct (Z.leb_spec (Z.of_nat (length firstRow)) keyColIndex); [by exists None, true|].
  destruct (Z.ltb_spec valueColIndex 0); cbn [orb]; [by exists None, true|].
  destruct (Z.leb_spec (Z.of_nat (length firstRow)) valueColIndex); [by exists None, true|].
  destruct (index_lt firstRow (Z.to_nat keyColIndex) ltac:(lia)) as (key & Hkey & _).
  destruct (index_lt firstRow (Z.to_nat valueColIndex) ltac:(lia)) as (value & Hvalue & _).
  destruct skipHeader; cbn [negb]; rewrite ?Hkey, ?Hvalue; cbn [mbind Go_bind mret Go_ret].
  - destruct (read_records_returns rest keyColIndex valueColIndex _ ∅ Huniform
                ltac:(lia) ltac:(lia)) as [[result|] ->]; cbn [mbind Go_bind mret Go_ret].
    + by exists (Some result), false.
    + by exists None, true.
  - destruct (read_records_returns rest keyColIndex valueColIndex _ (<[key:=value]> ∅)
                Huniform ltac:(lia) ltac:(lia)) as [[result|] ->];
      cbn [mbind Go_bind mret Go_ret].
    + by exists (Some result), false.
    + by exists None, true.
Qed.

Lemma index_nth (l : list string) (i : nat) :
  (i < length l)%nat → index l i = Ret (nth i l EmptyString).
Proof.
  intros Hi. unfold index.
  by rewrite (nth_error_nth' l EmptyString Hi).
Qed.

(** Reading records that all have enough fields writes each of them into
    the map, a later record over an earlier one with the same key. *)
Lemma read_records_all (records : list (list string)) (keyColIndex valueColIndex : Z)
    (n : nat) (result : gmap string string) :
  Forall (λ record, length record = n) records →
  0 ≤ keyColIndex < Z.of_nat n →
  0 ≤ valueColIndex < Z.of_nat n →
  read_records (map Some records) keyColIndex valueColIndex result
  = Ret (Some (fold_left
                 (λ result record,
                    <[record_key keyColIndex record := record_value valueColIndex record]>
                      result)
                 records result)).
Proof.
  intros Hrecords Hkey Hvalue. revert result.
  induction Hrecords as [|record records Hrecord _ IH]; intros result; [done|].
  cbn [map read_records fold_left].
  rewrite !index_nth by lia. cbn [mbind Go_bind].
  rewrite ToLower_EncodeToString. apply IH.
Qed.

Lemma fold_insert_other (records : list (list string)) (keyColIndex valueColIndex : Z)
    (result : gmap string string) (key : string) :
  Forall (λ record, record_key keyColIndex record ≠ key) records →
  fold_left
    (λ result record,
       <[record_key keyColIndex record := record_value valueColIndex record]> result)
    records result !! key
  = result !! key.
Proof.
  intros Hrecords. revert result.
  induction Hrecords as [|record records Hrecord _ IH]; intros result; [done|].
  cbn [fold_left]. rewrite IH. by rewrite lookup_insert_ne.
Qed.

(** After a refresh that succeeds, the catalog maps the key of a record,
    the lowercase hex text of its decoded key column, to the owner in the
    record, unless a later record has the same key; a certificate whose
    authority key identifier has that hex text gets the owner. *)
Theorem refresh_then_owner (get : nat → http_result)
    (CAOwners : option (gmap string string)) (header : list string)
    (before after : list (list string)) (record : list string) :
  download get 1 2 = Some (Some header :: map Some (before ++ record :: after)) →
  (18 < length header)%nat →
  Forall (λ r, length r = length header) (before ++ record :: after) →
  Forall (λ r, record_key 18 r ≠ record_key 18 record) after →
  ∃ catalog,
    addNewlyAvailableLogs_CAOwners get CAOwners = Ret (Some catalog)
    ∧ catalog !! record_key 18 record = Some (record_value 0 record)
    ∧ ∀ cert,
        key_type_agrees cert = true →
        Hex.EncodeToString (x509.AuthorityKeyId cert) = record_key 18 record →
        ∃ l, leafCertFromX509cert (Some catalog) cert = Ret l
             ∧ certstream.CAOwner l = record_value 0 record.
Proof.
  intros Hbody Hwidth Hrecords Hafter.
  unfold addNewlyAvailableLogs_CAOwners, DownloadAndParseCSV. cbv zeta.
  change (3 - 1)%nat with 2%nat. rewrite Hbody.
  destruct (Z.ltb_spec 18 0); [lia|].
  destruct (Z.leb_spec (Z.of_nat (length header)) 18); [lia|].
  destruct (Z.ltb_spec 0 0); [lia|].
  destruct (Z.leb_spec (Z.of_nat (length header)) 0); [lia|].
  cbn [orb negb mbind Go_bind mret Go_ret].
  rewrite (read_records_all _ 18 0 (length header)) by (done || lia).
  cbn [mbind Go_bind mret Go_ret fst].
  set (catalog := fold_left _ (before ++ record :: after) ∅).
  exists catalog. split; [reflexivity|].
  assert (catalog !! record_key 18 record = Some (record_value 0 record)) as Hlookup.
  { subst catalog. rewrite fold_left_app. cbn [fold_left].
    rewrite fold_insert_other by done. apply lookup_insert_eq. }
  split; [done|].
  intros cert Hkey Haki.
  destruct (leafCertFromX509cert_more (Some catalog) cert Hkey) as (l & Hl & Howner & _).
  exists l. split; [exact Hl|]. rewrite Howner. cbn [mbind option_bind].
  by rewrite Haki, Hlookup.
Qed.

End CatalogProperties.

Lemma DownloadAndParseCSV_returns_witness :
  ∃ result err,
    DownloadAndParseCSV (H := Sample.library)
      (λ attempt, if (attempt <? 2)%nat then Response 503 []
                  else Response 200 [Some ["Owner"; "SKI"]; Some ["Example CA"; "Gis8"]; None])
      1 0 true = Ret (result, err)
    ∧ (result = None ↔ err = true).
Proof.
  apply (DownloadAndParseCSV_returns (H := Sample.library)).
  intros body firstRow rest Hbody ->. vm_compute in Hbody.
  injection Hbody as <- <-.
  repeat constructor; intros fields [= <-]; reflexivity.
Defined.

Lemma refresh_then_owner_witness :
  let header := "CA Owner" :: replicate 17 EmptyString ++ ["Subject Key Identifier"] in
  let record := "Example CA" :: replicate 17 EmptyString ++ ["Gis8"] in
  ∃ catalog,
    addNewlyAvailableLogs_CAOwners (H := Sample.library)
      (λ _, Response 200 (Some header :: map Some ([] ++ record :: []))) None
    = Ret (Some catalog)
    ∧ catalog !! record_key (H := Sample.library) 18 record
      = Some (record_value 0 record)
    ∧ ∀ cert,
        key_type_agrees (H := Sample.library) cert = true →
        Hex.EncodeToString (x509.AuthorityKeyId cert)
        = record_key (H := Sample.library) 18 record →
        ∃ l, leafCertFromX509cert (H := Sample.library) (Some catalog) cert = Ret l
             ∧ certstream.CAOwner l = record_value 0 record.
Proof.
  intros header record.
  apply (refresh_then_owner (H := Sample.library) _ None header [] [] record).
  - reflexivity.
  - vm_compute. lia.
  - repeat constructor.
  - constructor.
Defined.

(** ** The start index, the URL and the key of a worker *)

(** A worker whose URL has no space starts at the tree size whenever every
    configured token has a space, as the tokens of the form "url index"
    have: no token is a substring of the URL. *)
Theorem runWorker_logStart_tree_size (TreeSize : Z) (ctURL : string)
    (StartIndex : list string) :
  Strings.mem_ascii " " ctURL = false →
  Forall (λ element, Strings.mem_ascii " " element = true) StartIndex →
  runWorker_logStart TreeSize ctURL StartIndex = Ret (int64_of_uint64 TreeSize).
Proof.
  intros HctURL HStartIndex. unfold runWorker_logStart.
  generalize (int64_of_uint64 TreeSize). intros logStart.
  induction HStartIndex as [|element StartIndex Helement _ IH]; [done|].
  cbn [startIndex_loop]. unfold startIndex_step.
  destruct (Strings.Contains ctURL element) eqn:Hsub.
  - pose proof (Contains_mem_ascii " " _ _ Hsub Helement). congruence.
  - cbn [mbind Go_bind mret Go_ret]. apply IH.
Qed.

Lemma runWorker_logStart_tree_size_witness :
  runWorker_logStart 5000 "https://ct.example.com/log"
    ["ct.example.com 100"; "other.example.net/log 7"]
  = Ret (int64_of_uint64 5000).
Proof.
  apply (runWorker_logStart_tree_size 5000 "https://ct.example.com/log"
           ["ct.example.com 100"; "other.example.net/log 7"]).
  - reflexivity.
  - repeat constructor.
Defined.

Section TrimRightFacts.

Lemma HasSuffix_slash_cons (c : ascii) (s : string) :
  s ≠ EmptyString →
  Strings.HasSuffix (String c s) "/" = Strings.HasSuffix s "/".
Proof.
  intros Hs. apply eq_true_iff_eq. rewrite !HasSuffix_iff. split.
  - intros [[|d t] Ht]; cbn in Ht.
    + injection Ht as _ ->. done.
    + injection Ht as _ ->. eauto.
  - intros [t ->]. by exists (String c t).
Qed.

(** A string that does not end with a slash is left as it is. *)
Lemma TrimRight_no_slash (s : string) :
  Strings.HasSuffix s "/" = false → Strings.TrimRight s "/" = s.
Proof.
  induction s as [|c s IH]; [done|]. intros Hsuffix.
  destruct s as [|d s].
  - cbn in *. destruct (Ascii.eqb c "/"); [done|done].
  - rewrite HasSuffix_slash_cons in Hsuffix by done.
    cbn [Strings.TrimRight] in *. by rewrite (IH Hsuffix).
Qed.

Lemma TrimRight_slash (t : string) :
  Strings.TrimRight (t +:+ "/") "/" = Strings.TrimRight t "/".
Proof.
  induction t as [|c t IH]; [done|].
  change (String c t +:+ "/") with (String c (t +:+ "/")).
  cbn [Strings.TrimRight]. by rewrite IH.
Qed.

Lemma TrimRight_append (p s : string) :
  Strings.TrimRight s "/" ≠ EmptyString →
  Strings.TrimRight (p +:+ s) "/" = p +:+ Strings.TrimRight s "/".
Proof.
  intros Hs. induction p as [|c p IH]; [done|].
  change (String c p +:+ s) with (String c (p +:+ s)).
  cbn [Strings.TrimRight]. rewrite IH.
  destruct p as [|d p]; [|done].
  cbn. by destruct (Strings.TrimRight s "/").
Qed.

(** On the rest of a log URL, removing every slash at the end removes the
    one slash there may be, and leaves something. *)
Lemma log_url_TrimRight (scheme rest : string) :
  log_url scheme rest →
  Strings.TrimRight rest "/" = Strings.TrimSuffix rest "/"
  ∧ Strings.TrimSuffix rest "/" ≠ EmptyString.
Proof.
  intros (_ & _ & _ & Hslashes & Hempty & Hslash).
  destruct (Strings.HasSuffix rest "/") eqn:Hsuffix.
  - apply HasSuffix_iff in Hsuffix as [t ->].
    rewrite TrimSuffix_app, TrimRight_slash.
    assert (Strings.HasSuffix t "/" = false) as Ht.
    { destruct (Strings.HasSuffix t "/") eqn:Ht; [|done].
      apply HasSuffix_iff in Ht as [u ->].
      rewrite append_assoc in Hslashes.
      assert (Strings.HasSuffix (u +:+ "//") "//" = true) as Hu
        by (apply HasSuffix_iff; eauto).
      change ("/" +:+ "/") with "//" in Hslashes. congruence. }
    split; [by apply TrimRight_no_slash|]. by intros ->.
  - rewrite TrimRight_no_slash by done.
    unfold Strings.TrimSuffix. by rewrite Hsuffix.
Qed.

End TrimRightFacts.

(** The key of a worker does not change when the worker rewrites its URL
    on its start: for a log URL, the normalized URL of the rewritten URL is
    the normalized URL of the URL of the log list, and the rewritten URL
    starts with a scheme and ends with no slash. *)
Theorem startDownloadingCerts_keeps_key (scheme rest : string) :
  log_url scheme rest →
  normalizeCtlogURL (startDownloadingCerts_ctURL (scheme +:+ rest))
  = normalizeCtlogURL (scheme +:+ rest)
  ∧ startDownloadingCerts_ctURL (scheme +:+ rest)
    = (if decide (scheme = EmptyString) then "https://" else scheme)
      +:+ Strings.TrimSuffix rest "/".
Proof.
  intros Hurl.
  destruct (log_url_TrimRight scheme rest Hurl) as [Htrim Hnonempty].
  destruct Hurl as (Hscheme & Hhttp & Hhttps & Hslashes & _ & _).
  set (r := Strings.TrimSuffix rest "/") in *.
  assert (Strings.HasPrefix r "http://" = false) as Hrhttp
    by (by apply HasPrefix_TrimSuffix).
  assert (Strings.HasPrefix r "https://" = false) as Hrhttps
    by (by apply HasPrefix_TrimSuffix).
  assert (Strings.TrimSuffix r "/" = r) as Hr.
  { unfold Strings.TrimSuffix at 1. subst r.
    by rewrite (HasSuffix_TrimSuffix rest "/"). }
  assert (normalizeCtlogURL (scheme +:+ rest) = r) as Hkey.
  { unfold normalizeCtlogURL. destruct Hscheme as [->|[->| ->]].
    - change (EmptyString +:+ rest) with rest.
      rewrite (TrimPrefix_none rest "https://") by done.
      by rewrite (TrimPrefix_none rest "http://") by done.
    - rewrite (TrimPrefix_none ("http://" +:+ rest) "https://") by reflexivity.
      by rewrite TrimPrefix_app.
    - rewrite TrimPrefix_app. by rewrite (TrimPrefix_none rest "http://") by done. }
  rewrite Hkey. unfold startDownloadingCerts_ctURL.
  rewrite TrimRight_append by (by rewrite Htrim). rewrite Htrim.
  unfold normalizeCtlogURL.
  destruct Hscheme as [->|[->| ->]].
  - change (EmptyString +:+ r) with r. rewrite Hrhttp, Hrhttps. cbn [negb andb].
    rewrite TrimPrefix_app, (TrimPrefix_none r "http://") by done. by rewrite Hr.
  - replace (Strings.HasPrefix ("http://" +:+ r) "http://") with true
      by (symmetry; apply HasPrefix_iff; eauto).
    rewrite andb_false_r.
    rewrite (TrimPrefix_none ("http://" +:+ r) "https://") by reflexivity.
    rewrite TrimPrefix_app. by rewrite Hr.
  - replace (Strings.HasPrefix ("https://" +:+ r) "https://") with true
      by (symmetry; apply HasPrefix_iff; eauto).
    cbn [negb andb].
    rewrite TrimPrefix_app, (TrimPrefix_none r "http://") by done. by rewrite Hr.
Qed.

Lemma startDownloadingCerts_keeps_key_witness :
  normalizeCtlogURL (startDownloadingCerts_ctURL (EmptyString +:+ "ct.example.com/log/"))
  = normalizeCtlogURL (EmptyString +:+ "ct.example.com/log/")
  ∧ startDownloadingCerts_ctURL (EmptyString +:+ "ct.example.com/log/")
    = "https://ct.example.com/log".
Proof.
  apply (startDownloadingCerts_keeps_key EmptyString "ct.example.com/log/").
  repeat split; try reflexivity; try discriminate. by left.
Defined.

(** Two slashes at the end of the URL of the log list give a worker a key
    that is not the key the watcher looks for. *)
Example startDownloadingCerts_changes_key :
  normalizeCtlogURL "ct.example.com//" = "ct.example.com/"
  ∧ normalizeCtlogURL (startDownloadingCerts_ctURL "ct.example.com//") = "ct.example.com".
Proof. split; reflexivity. Qed.

(** ** The workers of the watcher *)









Example addNewlyAvailableLogs_workers_sample :
  addNewlyAvailableLogs_workers
    (Some {| loglist3.Operators :=
               [{| loglist3.Name := "Example";
                   loglist3.Logs :=
                     [{| loglist3.Description := "Example Log";
                         loglist3.URL := "https://ct.example.com/log/" |};
                      {| loglist3.Description := "Other Log";
                         loglist3.URL := "https://ct.example.com/other/" |}] |}] |})
    [Sample.aWorker]
  = ([Sample.aWorker;
      {| name := "Other Log"; operatorName := "Example";
         ctURL := "https://ct.example.com/other/" |}], 1).
Proof. reflexivity. Qed.

(** ** The handler of the entries *)

Lemma certHandler_step_spec (processed : Z) (calls : list sink_call)
    (entry : certstream.Entry) :
  certHandler_step (processed, calls) entry
  = (int64_succ processed, calls ++ calls_for (int64_succ processed) entry).
Proof.
  unfold certHandler_step, calls_for.
  destruct (Z.rem (int64_succ processed) 1000 =? 0); by rewrite <- ?app_assoc.
Qed.

Lemma broadcasts_calls_for (n : Z) (entry : certstream.Entry) :
  broadcasts (calls_for n entry) = [entry].
Proof. unfold calls_for. by destruct (Z.rem n 1000 =? 0). Qed.

Lemma increments_calls_for (n : Z) (entry : certstream.Entry) :
  increments (calls_for n entry)
  = [(certstream.Operator (certstream.Source (certstream.Data entry)),
      certstream.NormalizedURL (certstream.Source (certstream.Data entry)))].
Proof. unfold calls_for. by destruct (Z.rem n 1000 =? 0). Qed.

(** [certHandler] hands every entry it receives to the broadcast, once and
    in the order of arrival, and ticks the counter of the operator and the
    normalized URL of each. *)
Theorem certHandler_forwards_all (entries : list certstream.Entry) :
  broadcasts (snd (certHandler entries)) = entries
  ∧ increments (snd (certHandler entries))
    = map (λ entry,
             (certstream.Operator (certstream.Source (certstream.Data entry)),
              certstream.NormalizedURL (certstream.Source (certstream.Data entry))))
        entries.
Proof.
  unfold certHandler.
  assert (∀ st,
            broadcasts (snd (fold_left certHandler_step entries st))
            = broadcasts (snd st) ++ entries
            ∧ increments (snd (fold_left certHandler_step entries st))
              = increments (snd st)
                ++ map (λ entry,
                          (certstream.Operator (certstream.Source (certstream.Data entry)),
                           certstream.NormalizedURL
                             (certstream.Source (certstream.Data entry))))
                     entries) as Hloop.
  { induction entries as [|entry entries IH]; intros [processed calls].
    - by rewrite !app_nil_r.
    - cbn [fold_left]. rewrite certHandler_step_spec.
      destruct (IH (int64_succ processed,
                    calls ++ calls_for (int64_succ processed) entry)) as [-> ->].
      cbn [snd]. unfold broadcasts, increments. rewrite !omap_app.
      fold (broadcasts (calls_for (int64_succ processed) entry)).
      fold (increments (calls_for (int64_succ processed) entry)).
      rewrite broadcasts_calls_for, increments_calls_for.
      by rewrite <- !app_assoc. }
  apply (Hloop (0, [])).
Qed.

(** While fewer than 2^63 entries have arrived, [processed] is their
    number and the calls are those for the entries in order: every
    thousandth entry, and no other, is stored as the example certificate
    before it is handed to the broadcast. *)
Theorem certHandler_example_every_1000 (entries : list certstream.Entry) :
  Z.of_nat (length entries) < 9223372036854775808 →
  certHandler entries = (Z.of_nat (length entries), calls_from 1 entries).
Proof.
  unfold certHandler. intros Hlength.
  assert (∀ processed calls,
            0 ≤ processed →
            processed + Z.of_nat (length entries) < 9223372036854775808 →
            fold_left certHandler_step entries (processed, calls)
            = (processed + Z.of_nat (length entries),
               calls ++ calls_from (processed + 1) entries)) as Hloop.
  { clear Hlength. induction entries as [|entry entries IH];
      intros processed calls Hprocessed Hbound.
    - cbn. by rewrite Z.add_0_r, app_nil_r.
    - cbn [fold_left calls_from]. rewrite certHandler_step_spec.
      cbn [length] in Hbound.
      assert (int64_succ processed = processed + 1) as ->.
      { unfold int64_succ. destruct (Z.eqb_spec processed 9223372036854775807); lia. }
      rewrite IH by lia. rewrite <- app_assoc. f_equal. cbn [length]. lia. }
  rewrite (Hloop 0 []) by lia. done.
Qed.

Lemma certHandler_example_every_1000_witness :
  certHandler [Sample.anEntry 1; Sample.anEntry 2]
  = (Z.of_nat (length [Sample.anEntry 1; Sample.anEntry 2]),
     calls_from 1 [Sample.anEntry 1; Sample.anEntry 2]).
Proof.
  apply (certHandler_example_every_1000 [Sample.anEntry 1; Sample.anEntry 2]).
  vm_compute. reflexivity.
Defined.

(** The thousandth entry is the first that is stored as the example. *)
Example certHandler_thousandth :
  calls_for 999 (Sample.anEntry 999)
  = [Broadcast (Sample.anEntry 999); Inc "Example" "ct.example.com/log"]
  ∧ calls_for 1000 (Sample.anEntry 1000)
    = [SetExampleCert (Sample.anEntry 1000); Broadcast (Sample.anEntry 1000);
       Inc "Example" "ct.example.com/log"].
Proof. split; reflexivity. Qed.

Lemma parseCertificateChain_error_witness :
  parseCertificateChain (H := Sample.strict_library) None ([[x30]] ++ [] :: [[x31]])
  = Ret None.
Proof.
  apply (parseCertificateChain_error (H := Sample.strict_library) None [[x30]] [[x31]] []).
  - repeat constructor. exists Sample.leaf. split; reflexivity.
  - reflexivity.
Defined.
